(** * The API gateway of gateway/main.py: token gate and request forwarder

    A shallow embedding of [create_access_token], [verify_token],
    [forward_request], [login] and the protected route handlers.

    Python values are modelled as follows.
    - [str] is [string]; [int] is [Z]; a [dict] with string keys is an
      association list in insertion order ([list(d.keys())] depends on it).
    - A raised exception is the [Raise] outcome of a computation; the
      [try]/[except] of the source is [try_except].
    - The effects of the module are the records it hands to [logger] and
      the HTTP calls of the [httpx] client; a computation returns the list
      of those events next to its outcome.
    - Clock readings ([datetime.utcnow()], and the clock the token library
      reads) are microseconds since the epoch, the resolution of a
      [datetime]; the time claims of a token are whole seconds. *)

From Stdlib Require Import ZArith List String Ascii Bool Lia DecimalString.
Import ListNotations.
Local Open Scope string_scope.
Local Open Scope Z_scope.

(** ** Python values *)

#[local] Set Warnings "-register-all".

(** A Python [float], by class of IEEE double; a finite one is
    [(-1)^negative * m * 2^e]. *)
Inductive pyfloat : Type :=
| FFinite (negative : bool) (m : N) (e : Z)
| FInfinity (negative : bool)
| FNaN.

(** JSON values as Python decodes them: request and response bodies,
    exception details, claims.  [JNum] is an [int], [JFloat] a [float]. *)
Inductive json : Type :=
| JNull : json
| JBool : bool -> json
| JNum : Z -> json
| JStr : string -> json
| JArr : list json -> json
| JObj : list (string * json) -> json
| JFloat : pyfloat -> json.

Module Dict.

(** [dict] with [str] keys, in insertion order. *)
Definition t (V : Type) : Type := list (string * V).

Fixpoint get {V} (k : string) (d : t V) : option V :=
  match d with
  | [] => None
  | (k', v) :: d' => if String.eqb k k' then Some v else get k d'
  end.

(** [k in d] *)
Definition mem {V} (k : string) (d : t V) : bool :=
  match get k d with Some _ => true | None => false end.

(** [d[k] = v]: replaces the value in place, or appends a new key. *)
Fixpoint set {V} (k : string) (v : V) (d : t V) : t V :=
  match d with
  | [] => [(k, v)]
  | (k', v') :: d' =>
      if String.eqb k k' then (k', v) :: d' else (k', v') :: set k v d'
  end.

(** [d.update(e)] *)
Definition update {V} (d e : t V) : t V :=
  fold_left (fun acc kv => set (fst kv) (snd kv) acc) e d.

(** [list(d.keys())] *)
Definition keys {V} (d : t V) : list string := map fst d.

End Dict.

(** [payload.get(k)] on a decoded claim set: [None] when the key is absent,
    and also when it is present with the value [null]. *)
Definition py_get (k : string) (d : Dict.t json) : json :=
  match Dict.get k d with
  | Some v => v
  | None => JNull
  end.

(** [str(n)] for an [int]. *)
Definition str_of_int (n : Z) : string := NilZero.string_of_int (Z.to_int n).

(** Truth value of a [str]: the empty string is false. *)
Definition str_truthy (s : string) : bool :=
  match s with
  | EmptyString => false
  | String _ _ => true
  end.

(** ** Exceptions, events and computations *)

(** The exception classes the module raises or meets.  A constructor
    stands for the class and its subclasses; [PyJWTError cls] is the
    class [cls] of the token library other than [ExpiredSignatureError];
    [OtherError cls] is any other subclass of [Exception]. *)
Inductive exn : Type :=
| HTTPException (status_code : Z) (detail : json)
| TimeoutException (msg : string)
| ConnectError (msg : string)
| ExpiredSignatureError
| PyJWTError (cls msg : string)
| OtherError (cls msg : string).

Inductive level : Type := INFO | WARNING | ERROR.

Record http_request : Type := mkRequest {
  req_method : string;
  req_url : string;
  req_json : option json
}.

Inductive event : Type :=
| Log (lvl : level) (msg : string)
| NetCall (req : http_request).

Inductive result (A : Type) : Type :=
| Ok (a : A)
| Raise (e : exn).
Arguments Ok {A} a.
Arguments Raise {A} e.

(** A computation: its outcome and the events it produced, oldest first. *)
Definition M (A : Type) : Type := result A * list event.

Definition ret {A} (a : A) : M A := (Ok a, []).
Definition raise {A} (e : exn) : M A := (Raise e, []).
Definition logger (lvl : level) (msg : string) : M unit := (Ok tt, [Log lvl msg]).

Definition bind {A B} (m : M A) (f : A -> M B) : M B :=
  match m with
  | (Ok a, t) => let (r, t') := f a in (r, (t ++ t')%list)
  | (Raise e, t) => (Raise e, t)
  end.

(** [try: m  except ...: h e] *)
Definition try_except {A} (m : M A) (h : exn -> M A) : M A :=
  match m with
  | (Ok a, t) => (Ok a, t)
  | (Raise e, t) => let (r, t') := h e in (r, (t ++ t')%list)
  end.

Notation "x <- m ;; k" := (bind m (fun x => k))
  (at level 61, m at next level, right associativity).
Notation "m ;;; k" := (bind m (fun _ => k))
  (at level 61, right associativity).

Definition outcome {A} (m : M A) : result A := fst m.
Definition events {A} (m : M A) : list event := snd m.

(** The HTTP calls among the events. *)
Fixpoint net_calls (t : list event) : list http_request :=
  match t with
  | [] => []
  | NetCall r :: t' => r :: net_calls t'
  | Log _ _ :: t' => net_calls t'
  end.

(** ** Module constants *)

Definition SECRET_KEY : string := "your-secret-key-keep-it-secret".
Definition ALGORITHM : string := "HS256".
Definition ACCESS_TOKEN_EXPIRE_MINUTES : Z := 30.

Definition SERVICES : Dict.t string :=
  [ ("student", "http://localhost:8001");
    ("course", "http://localhost:8002") ].

Record user : Type := mkUser {
  user_username : string;
  user_password : string;
  user_role : string
}.

(** Mock user database *)
Definition fake_users_db : Dict.t user :=
  [ ("admin", mkUser "admin" "admin123" "admin");
    ("user", mkUser "user" "user123" "user") ].

Record LoginRequest : Type := mkLoginRequest {
  username : string;
  password : string
}.

Definition HTTP_401_UNAUTHORIZED : Z := 401.
Definition HTTP_404_NOT_FOUND : Z := 404.
Definition HTTP_405_METHOD_NOT_ALLOWED : Z := 405.
Definition HTTP_500_INTERNAL_SERVER_ERROR : Z := 500.
Definition HTTP_503_SERVICE_UNAVAILABLE : Z := 503.
Definition HTTP_504_GATEWAY_TIMEOUT : Z := 504.

(** ** Tokens *)

(** A bearer token as [jwt.decode] sees the string it is given: three
    segments that decode to a header (of which only [alg] matters here), a
    claim set and a signature, or a string that does not split and decode
    that way. *)
Inductive token : Type :=
| Malformed (raw : string)
| Jws (alg : string) (claims : Dict.t json) (signature : string).

Record Token : Type := mkToken {
  access_token : token;
  token_type : string
}.

Record HTTPAuthorizationCredentials : Type := mkCredentials {
  scheme : string;
  credentials : token
}.

(** The [Authorization] header of a request, split at its first space into
    scheme and credentials; [None] when the request has no such header. *)
Record Request : Type := mkHttpRequest {
  authorization : option (string * token)
}.

(** ** Responses *)

(** What the [httpx] client returns. *)
Record Response : Type := mkResponse {
  resp_status_code : Z;
  resp_text : string
}.

(** What the gateway returns. *)
Record JSONResponse : Type := mkJSONResponse {
  content : json;
  status_code : Z
}.

(** ** A concrete environment

    The gateway is stated over its libraries (the signature primitive, the
    backends behind the HTTP client, the JSON decoder, [str]).  The
    instances below fix one such environment, on which the statements are
    evaluated. *)

(** A keyed tag over the algorithm name and the claim names. *)
Definition demo_sign (key alg : string) (claims : Dict.t json) : string :=
  key ++ ":" ++ alg ++ ":" ++ String.concat "," (Dict.keys claims).

(** Decodes the empty array and the empty object, rejects the rest. *)
Definition demo_json_loads (s : string) : json + string :=
  if String.eqb s "[]" then inl (JArr [])
  else if String.eqb s "{}" then inl (JObj [])
  else inr "Expecting value: line 1 column 1 (char 0)".

(** The student service lists no student, knows no student 999, and
    answers a health probe with a page that is not JSON; the course
    service refuses connections; any other host times out. *)
Definition demo_backend (r : http_request) : result Response :=
  if String.eqb (req_url r) "http://localhost:8001/api/students"
  then Ok (mkResponse 200 "[]")
  else if String.eqb (req_url r) "http://localhost:8001/api/students/999"
  then Ok (mkResponse 404 "Student not found")
  else if String.eqb (req_url r) "http://localhost:8001/health"
  then Ok (mkResponse 200 "<html>ok</html>")
  else if String.eqb (req_url r) "http://localhost:8001/api/students/7"
  then Ok (mkResponse 204 "")
  else if String.prefix "http://localhost:8002" (req_url r)
  then Raise (ConnectError "All connection attempts failed")
  else Raise (TimeoutException "").

Definition demo_str_exn (e : exn) : string :=
  match e with
  | HTTPException c _ => str_of_int c
  | TimeoutException m | ConnectError m => m
  | PyJWTError _ m => m
  | ExpiredSignatureError => "Signature has expired."
  | OtherError _ m => m
  end.

(** Reads a string of decimal digits. *)
Fixpoint demo_digits (acc : Z) (s : string) : option Z :=
  match s with
  | EmptyString => Some acc
  | String c s' =>
      let n := nat_of_ascii c in
      if andb (Nat.leb 48 n) (Nat.leb n 57)
      then demo_digits (10 * acc + Z.of_nat (n - 48)) s'
      else None
  end.

Definition demo_int_of_str (s : string) : option Z :=
  match s with
  | EmptyString => None
  | _ => demo_digits 0 s
  end.

Fixpoint demo_has_nan (j : json) : bool :=
  match j with
  | JFloat (FFinite _ _ _) => false
  | JFloat _ => true
  | JArr l => existsb demo_has_nan l
  | JObj d => existsb (fun kv => demo_has_nan (snd kv)) d
  | _ => false
  end.

(** Rendering refuses the floats that JSON cannot write. *)
Definition demo_render_error (j : json) : option exn :=
  if demo_has_nan j
  then Some (OtherError "ValueError"
               "Out of range float values are not JSON compliant")
  else None.

Definition demo_str_json (j : json) : string :=
  match j with
  | JStr s => s
  | JNum n => str_of_int n
  | _ => "?"
  end.

(** The claim set of the token that [login] issues to admin during the
    second 1000 of the clock. *)
Definition admin_claims : Dict.t json :=
  [ ("sub", JStr "admin"); ("role", JStr "admin"); ("exp", JNum 2800) ].

Definition admin_token : token :=
  Jws "HS256" admin_claims "your-secret-key-keep-it-secret:HS256:sub,role,exp".

(** The same header and claim set under a signature that is not the
    gateway's. *)
Definition forged_token : token := Jws "HS256" admin_claims "forged".

(** A token under the gateway's signature that names no subject. *)
Definition anonymous_claims (exp : Z) : Dict.t json :=
  [ ("role", JStr "admin"); ("exp", JNum exp) ].

Definition anonymous_token (exp : Z) : token :=
  Jws "HS256" (anonymous_claims exp)
    "your-secret-key-keep-it-secret:HS256:role,exp".

(** ** The course service: course-service/models.py and data_service.py

    The mock data service keeps a list of courses and a counter.  Its
    methods are state-passing functions here: each takes the store
    [self] and returns its result next to the store it leaves.  A field
    of a course is [None] after an update that set it to [null];
    assignment to a field of a model is not validated. *)

Module CourseService.

Record Course : Type := mkCourse {
  id : Z;
  name : option string;
  code : option string;
  credits : option Z;
  instructor : option string
}.

(** [CourseCreate]: all four fields are required. *)
Record CourseCreate : Type := mkCourseCreate {
  new_name : string;
  new_code : string;
  new_credits : Z;
  new_instructor : string
}.

(** [CourseUpdate].  A field is [None] when the caller did not set it
    ([dict(exclude_unset=True)] leaves it out), and [Some v] when the
    caller set it, [v] being [None] for an explicit [null]. *)
Record CourseUpdate : Type := mkCourseUpdate {
  set_name : option (option string);
  set_code : option (option string);
  set_credits : option (option Z);
  set_instructor : option (option string)
}.

Record CourseMockDataService : Type := mkService {
  courses : list Course;
  next_id : Z
}.

(** [__init__] *)
Definition init : CourseMockDataService :=
  mkService
    [ mkCourse 1 (Some "Introduction to Programming") (Some "CS101") (Some 3)
        (Some "Dr. Smith");
      mkCourse 2 (Some "Data Structures") (Some "CS201") (Some 4)
        (Some "Dr. Johnson");
      mkCourse 3 (Some "Database Systems") (Some "CS301") (Some 3)
        (Some "Dr. Williams") ]
    4.

Definition get_all_courses (self : CourseMockDataService) : list Course :=
  courses self.

(** [next((c for c in self.courses if c.id == course_id), None)] *)
Definition get_course_by_id (self : CourseMockDataService) (course_id : Z)
    : option Course :=
  find (fun c => id c =? course_id) (courses self).

Definition add_course (self : CourseMockDataService) (course_data : CourseCreate)
    : Course * CourseMockDataService :=
  let new_course :=
    mkCourse (next_id self)
      (Some (new_name course_data)) (Some (new_code course_data))
      (Some (new_credits course_data)) (Some (new_instructor course_data)) in
  (new_course,
   mkService (courses self ++ [new_course]) (next_id self + 1)).

(** The [setattr] loop over the fields the update sets. *)
Definition apply_update (course : Course) (update_data : CourseUpdate) : Course :=
  let pick {A} (new : option (option A)) (old : option A) : option A :=
    match new with
    | Some v => v
    | None => old
    end in
  mkCourse (id course)
    (pick (set_name update_data) (name course))
    (pick (set_code update_data) (code course))
    (pick (set_credits update_data) (credits course))
    (pick (set_instructor update_data) (instructor course)).

(** The course object found by id is changed in place: the list holds the
    changed object at the position of the first course with that id. *)
Fixpoint assign_first (course_id : Z) (course' : Course) (l : list Course)
    : list Course :=
  match l with
  | [] => []
  | c :: l' =>
      if id c =? course_id then course' :: l'
      else c :: assign_first course_id course' l'
  end.

Definition update_course (self : CourseMockDataService) (course_id : Z)
    (course_data : CourseUpdate) : option Course * CourseMockDataService :=
  match get_course_by_id self course_id with
  | Some course =>
      let course' := apply_update course course_data in
      (Some course',
       mkService (assign_first course_id course' (courses self)) (next_id self))
  | None => (None, self)
  end.

Definition option_eqb {A} (eqb : A -> A -> bool) (x y : option A) : bool :=
  match x, y with
  | Some a, Some b => eqb a b
  | None, None => true
  | _, _ => false
  end.

(** [==] on two courses: all fields are equal. *)
Definition Course_eqb (a b : Course) : bool :=
  (id a =? id b)
  && option_eqb String.eqb (name a) (name b)
  && option_eqb String.eqb (code a) (code b)
  && option_eqb Z.eqb (credits a) (credits b)
  && option_eqb String.eqb (instructor a) (instructor b).

(** [l.remove(x)]: drops the first item equal to [x]; [None] stands for
    the [ValueError] of a list without such an item. *)
Fixpoint list_remove (x : Course) (l : list Course) : option (list Course) :=
  match l with
  | [] => None
  | y :: l' =>
      if Course_eqb y x then Some l'
      else match list_remove x l' with
           | Some r => Some (y :: r)
           | None => None
           end
  end.

(** [None] stands for a [ValueError] out of [self.courses.remove]. *)
Definition delete_course (self : CourseMockDataService) (course_id : Z)
    : option (bool * CourseMockDataService) :=
  match get_course_by_id self course_id with
  | Some course =>
      match list_remove course (courses self) with
      | Some l => Some (true, mkService l (next_id self))
      | None => None
      end
  | None => Some (false, self)
  end.

(** The calls a client of the service can make, and a run of them from a
    store. *)
Inductive call : Type :=
| AddCourse (course_data : CourseCreate)
| UpdateCourse (course_id : Z) (course_data : CourseUpdate)
| DeleteCourse (course_id : Z).

Definition step (self : CourseMockDataService) (c : call)
    : CourseMockDataService :=
  match c with
  | AddCourse d => snd (add_course self d)
  | UpdateCourse i d => snd (update_course self i d)
  | DeleteCourse i =>
      match delete_course self i with
      | Some (_, self') => self'
      | None => self
      end
  end.

Definition run (calls : list call) (self : CourseMockDataService)
    : CourseMockDataService :=
  fold_left step calls self.

(** Ids are pairwise distinct and all below the counter. *)
Definition ids_fresh (self : CourseMockDataService) : Prop :=
  NoDup (map id (courses self)) /\
  Forall (fun c => id c < next_id self) (courses self).

(** Dropping the first course with the given id. *)
Fixpoint drop_first (course_id : Z) (l : list Course) : list Course :=
  match l with
  | [] => []
  | c :: l' => if id c =? course_id then l' else c :: drop_first course_id l'
  end.

End CourseService.

(** ** The gateway *)

Section Gateway.

#[local] Set Default Proof Using "Type".

(** The signature the token library computes for algorithm [alg] under
    [key] over the header and claim set (HMAC-SHA256 for HS256). *)
Variable sign : string -> string -> Dict.t json -> string.

(** [int(s)] for a [str]: the integer it spells, if it spells one. *)
Variable int_of_str : string -> option Z.

(** What the HTTP client gets for a request: a response, or the exception
    the transport raises. *)
Variable backend : http_request -> result Response.

(** The JSON decoder behind [response.json()]: the value, or the message
    of the decode error. *)
Variable json_loads : string -> json + string.

(** The exception that rendering a decoded body raises in the constructor
    of [JSONResponse] ([json.dumps] with [allow_nan=False], then
    [encode("utf-8")]): a [ValueError] for a NaN or an infinity, a
    [UnicodeEncodeError] for a lone surrogate; [None] when the body
    renders. *)
Variable render_error : json -> option exn.

(** [str(e)] for an exception and [str(v)] for a decoded claim. *)
Variable str_exn : exn -> string.
Variable str_json : json -> string.

(** *** The token library, as the module uses it *)

(** [jwt.encode(payload, key, algorithm=alg)] *)
Definition jwt_encode (payload : Dict.t json) (key alg : string) : token :=
  Jws alg payload (sign key alg payload).

(** [int(v)] as the token library applies it to a time claim: the
    library catches the [ValueError] and lets any other exception pass. *)
Inductive conversion : Type :=
| Converted (n : Z)
| NotAnInteger
| Unconvertible (e : exn).

Definition py_int (v : json) : conversion :=
  match v with
  | JNum n => Converted n
  | JBool b => Converted (if b then 1 else 0)
  | JFloat (FFinite negative m e) =>
      let a := Z.shiftl (Z.of_N m) e in
      Converted (if negative then - a else a)
  | JFloat (FInfinity _) =>
      Unconvertible
        (OtherError "OverflowError" "cannot convert float infinity to integer")
  | JFloat FNaN => NotAnInteger
  | JStr s =>
      match int_of_str s with
      | Some n => Converted n
      | None => NotAnInteger
      end
  | JNull | JArr _ | JObj _ =>
      Unconvertible
        (OtherError "TypeError"
           "int() argument must be a string, a bytes-like object or a real number")
  end.

(** Truth value of a decoded JSON value. *)
Definition py_truthy (v : json) : bool :=
  match v with
  | JNull => false
  | JBool b => b
  | JNum n => negb (n =? 0)
  | JStr s => str_truthy s
  | JArr l => match l with [] => false | _ => true end
  | JObj d => match d with [] => false | _ => true end
  | JFloat (FFinite _ m _) => negb (N.eqb m 0)
  | JFloat _ => true
  end.

Definition and_then {A B} (r : result A) (f : A -> result B) : result B :=
  match r with
  | Ok a => f a
  | Raise e => Raise e
  end.

(** A time claim in whole seconds against the clock in microseconds. *)
Definition seconds (n : Z) : Z := n * 1000000.

(** [_validate_iat]: the claim must be an integer not later than the
    clock. *)
Definition validate_iat (claims : Dict.t json) (now : Z) : result unit :=
  match Dict.get "iat" claims with
  | None => Ok tt
  | Some v =>
      match py_int v with
      | Converted iat =>
          if now <? seconds iat
          then Raise (PyJWTError "ImmatureSignatureError"
                        "The token is not yet valid (iat)")
          else Ok tt
      | NotAnInteger =>
          Raise (PyJWTError "InvalidIssuedAtError"
                   "Issued At claim (iat) must be an integer.")
      | Unconvertible e => Raise e
      end
  end.

(** [_validate_nbf] *)
Definition validate_nbf (claims : Dict.t json) (now : Z) : result unit :=
  match Dict.get "nbf" claims with
  | None => Ok tt
  | Some v =>
      match py_int v with
      | Converted nbf =>
          if now <? seconds nbf
          then Raise (PyJWTError "ImmatureSignatureError"
                        "The token is not yet valid (nbf)")
          else Ok tt
      | NotAnInteger =>
          Raise (PyJWTError "DecodeError"
                   "Not Before claim (nbf) must be an integer.")
      | Unconvertible e => Raise e
      end
  end.

(** [_validate_exp]: expired when [exp <= now]. *)
Definition validate_exp (claims : Dict.t json) (now : Z) : result unit :=
  match Dict.get "exp" claims with
  | None => Ok tt
  | Some v =>
      match py_int v with
      | Converted exp =>
          if seconds exp <=? now
          then Raise ExpiredSignatureError
          else Ok tt
      | NotAnInteger =>
          Raise (PyJWTError "DecodeError"
                   "Expiration Time claim (exp) must be an integer.")
      | Unconvertible e => Raise e
      end
  end.

(** [_validate_aud] without an expected audience: a token that names an
    audience is refused. *)
Definition validate_aud (claims : Dict.t json) : result unit :=
  match Dict.get "aud" claims with
  | None => Ok tt
  | Some v =>
      if py_truthy v
      then Raise (PyJWTError "InvalidAudienceError" "Invalid audience")
      else Ok tt
  end.

(** [_validate_sub] and [_validate_jti]: the claim, if present, must be a
    [str]. *)
Definition validate_str (k cls msg : string) (claims : Dict.t json)
    : result unit :=
  match Dict.get k claims with
  | None | Some (JStr _) => Ok tt
  | Some _ => Raise (PyJWTError cls msg)
  end.

(** [_validate_claims] with the default options and no expected issuer,
    audience or subject, in the order of the library (PyJWT 2.10). *)
Definition validate_claims (claims : Dict.t json) (now : Z) : result unit :=
  and_then (validate_iat claims now) (fun _ =>
  and_then (validate_nbf claims now) (fun _ =>
  and_then (validate_exp claims now) (fun _ =>
  and_then (validate_aud claims) (fun _ =>
  and_then (validate_str "sub" "InvalidSubjectError"
              "Subject must be a string" claims) (fun _ =>
  validate_str "jti" "InvalidJTIError" "JWT ID must be a string" claims))))).

(** [jwt.decode(token, key, algorithms=algorithms)] at clock reading
    [now]: the segments are parsed, the algorithm and the signature are
    checked, and only then the registered claims of the verified claim
    set are validated. *)
Definition jwt_decode (tok : token) (key : string) (algorithms : list string)
    (now : Z) : result (Dict.t json) :=
  match tok with
  | Malformed _ => Raise (PyJWTError "DecodeError" "Not enough segments")
  | Jws alg claims signature =>
      if negb (existsb (String.eqb alg) algorithms)
      then Raise (PyJWTError "InvalidAlgorithmError"
                    "The specified alg value is not allowed")
      else if negb (String.eqb signature (sign key alg claims))
      then Raise (PyJWTError "InvalidSignatureError"
                    "Signature verification failed")
      else and_then (validate_claims claims now) (fun _ => Ok claims)
  end.

(** *** JWT Authentication Functions *)

(** [timegm(d.utctimetuple())], by which [jwt.encode] writes a
    [datetime] claim: the whole seconds of [d], its microseconds dropped. *)
Definition timegm (d : Z) : Z := d / 1000000.

(** [expire] is a [datetime]; the claim [jwt.encode] signs for it is
    [timegm expire]. *)
Definition create_access_token (now : Z) (data : Dict.t json) : token :=
  let to_encode := data in
  let expire := now + ACCESS_TOKEN_EXPIRE_MINUTES * 60 * 1000000 in
  let to_encode := Dict.update to_encode [("exp", JNum (timegm expire))] in
  let encoded_jwt := jwt_encode to_encode SECRET_KEY ALGORITHM in
  encoded_jwt.

(** What evaluating [jwt.JWTError] raises: the token library has no
    such name. *)
Definition attribute_error : exn :=
  OtherError "AttributeError" "module 'jwt' has no attribute 'JWTError'".

(** An exception in the [try] that is not an [ExpiredSignatureError]
    (the 401 raised for a missing subject is one) reaches the second
    clause, whose class expression [jwt.JWTError] is evaluated then and
    raises [attribute_error]; the body of that clause, the 401 "Could not
    validate credentials", is never reached. *)
Definition verify_token (now : Z) (creds : HTTPAuthorizationCredentials)
    : M (Dict.t json) :=
  try_except
    (let tok := credentials creds in
     payload <- (jwt_decode tok SECRET_KEY [ALGORITHM] now, []) ;;
     let username := py_get "sub" payload in
     match username with
     | JNull =>
         raise (HTTPException HTTP_401_UNAUTHORIZED
                  (JStr "Invalid authentication credentials"))
     | _ => ret payload
     end)
    (fun e =>
       match e with
       | ExpiredSignatureError =>
           raise (HTTPException HTTP_401_UNAUTHORIZED
                    (JStr "Token has expired"))
       | _ => raise attribute_error
       end).

(** *** The HTTP client *)

Definition send (req : http_request) : M Response :=
  (backend req, [NetCall req]).

(** [client.get] and [client.delete] take no [json] keyword;
    [client.post] and [client.put] do. *)
Definition unexpected_keyword (name : string) : exn :=
  OtherError "TypeError"
    (name ++ "() got an unexpected keyword argument 'json'").

Definition client_get (url : string) (kwargs : option json) : M Response :=
  match kwargs with
  | None => send (mkRequest "GET" url None)
  | Some _ => raise (unexpected_keyword "get")
  end.

Definition client_post (url : string) (kwargs : option json) : M Response :=
  send (mkRequest "POST" url kwargs).

Definition client_put (url : string) (kwargs : option json) : M Response :=
  send (mkRequest "PUT" url kwargs).

Definition client_delete (url : string) (kwargs : option json) : M Response :=
  match kwargs with
  | None => send (mkRequest "DELETE" url None)
  | Some _ => raise (unexpected_keyword "delete")
  end.

(** [response.json()] *)
Definition response_json (response : Response) : M json :=
  match json_loads (resp_text response) with
  | inl v => ret v
  | inr msg => raise (OtherError "JSONDecodeError" msg)
  end.

(** *** Enhanced Error Handling *)

(** The [if]/[elif] chain on [method] inside the [try]. *)
Definition call_backend (url method : string) (kwargs : option json)
    : M Response :=
  if String.eqb method "GET" then client_get url kwargs
  else if String.eqb method "POST" then client_post url kwargs
  else if String.eqb method "PUT" then client_put url kwargs
  else if String.eqb method "DELETE" then client_delete url kwargs
  else
    logger ERROR ("Method not allowed: " ++ method) ;;;
    raise (HTTPException HTTP_405_METHOD_NOT_ALLOWED
             (JObj [ ("error", JStr "Method Not Allowed");
                     ("message",
                      JStr ("HTTP method '" ++ method ++ "' is not supported"));
                     ("allowed_methods",
                      JArr [JStr "GET"; JStr "POST"; JStr "PUT"; JStr "DELETE"]) ])).

(** [JSONResponse(content=body, status_code=status)] for a decoded body:
    the constructor renders the content and raises if it cannot. *)
Definition new_JSONResponse (body : json) (status : Z) : M JSONResponse :=
  match render_error body with
  | Some e => raise e
  | None => ret (mkJSONResponse body status)
  end.

(** The rest of the [try] body, once a response is there.  The error
    envelope holds two literals, the status, the name of a registered
    service and the text the client decoded (with replacement of what it
    cannot decode); it always renders. *)
Definition classify (service : string) (response : Response) : M JSONResponse :=
  if 400 <=? resp_status_code response then
    logger WARNING
      ("Service returned error: " ++ str_of_int (resp_status_code response)) ;;;
    let error_detail :=
      JObj [ ("error", JStr "Service Error");
             ("status_code", JNum (resp_status_code response));
             ("service", JStr service);
             ("message", JStr (resp_text response)) ] in
    ret (mkJSONResponse error_detail (resp_status_code response))
  else
    logger INFO
      ("Request successful: " ++ str_of_int (resp_status_code response)) ;;;
    body <- (if str_truthy (resp_text response)
             then response_json response
             else ret JNull) ;;
    new_JSONResponse body (resp_status_code response).

(** The three [except] clauses, in source order. *)
Definition on_error (service base : string) (e : exn) : M JSONResponse :=
  match e with
  | TimeoutException _ =>
      logger ERROR ("Timeout connecting to service: " ++ service) ;;;
      raise (HTTPException HTTP_504_GATEWAY_TIMEOUT
               (JObj [ ("error", JStr "Gateway Timeout");
                       ("message",
                        JStr ("The service '" ++ service
                              ++ "' took too long to respond"));
                       ("service", JStr service) ]))
  | ConnectError _ =>
      logger ERROR ("Connection error to service: " ++ service) ;;;
      raise (HTTPException HTTP_503_SERVICE_UNAVAILABLE
               (JObj [ ("error", JStr "Service Unavailable");
                       ("message",
                        JStr ("Unable to connect to '" ++ service
                              ++ "' service. Please ensure the service is running."));
                       ("service", JStr service);
                       ("service_url", JStr base) ]))
  | _ =>
      logger ERROR ("Unexpected error: " ++ str_exn e) ;;;
      raise (HTTPException HTTP_500_INTERNAL_SERVER_ERROR
               (JObj [ ("error", JStr "Internal Server Error");
                       ("message",
                        JStr "An unexpected error occurred while processing your request");
                       ("details", JStr (str_exn e)) ]))
  end.

(** [kwargs] is the [json=] keyword, the only one the handlers pass. *)
Definition forward_request (service path method : string)
    (kwargs : option json) : M JSONResponse :=
  match Dict.get service SERVICES with
  | None =>
      logger ERROR ("Service not found: " ++ service) ;;;
      raise (HTTPException HTTP_404_NOT_FOUND
               (JObj [ ("error", JStr "Service Not Found");
                       ("message",
                        JStr ("The requested service '" ++ service
                              ++ "' is not available"));
                       ("available_services",
                        JArr (map JStr (Dict.keys SERVICES))) ]))
  | Some base =>
      let url := base ++ path in
      logger INFO ("Forwarding " ++ method ++ " request to: " ++ url) ;;;
      try_except
        (response <- call_backend url method kwargs ;;
         classify service response)
        (on_error service base)
  end.

(** *** Authentication Endpoints *)

Definition login (now : Z) (login_data : LoginRequest) : M Token :=
  let failed : M Token :=
    logger WARNING
      ("Failed login attempt for user: " ++ username login_data) ;;;
    raise (HTTPException HTTP_401_UNAUTHORIZED
             (JObj [ ("error", JStr "Authentication Failed");
                     ("message", JStr "Incorrect username or password") ])) in
  match Dict.get (username login_data) fake_users_db with
  | None => failed
  | Some u =>
      if negb (String.eqb (user_password u) (password login_data))
      then failed
      else
        let access_token :=
          create_access_token now
            [ ("sub", JStr (user_username u)); ("role", JStr (user_role u)) ] in
        logger INFO
          ("Successful login for user: " ++ username login_data) ;;;
        ret (mkToken access_token "bearer")
  end.

(** *** The bearer scheme and the protected routes *)

Definition lower_ascii (c : ascii) : ascii :=
  let n := nat_of_ascii c in
  if andb (Nat.leb 65 n) (Nat.leb n 90) then ascii_of_nat (n + 32) else c.

Fixpoint lower (s : string) : string :=
  match s with
  | EmptyString => EmptyString
  | String c s' => String (lower_ascii c) (lower s')
  end.

(** Modelled from the spec: the status with which the framework's
    [HTTPBearer] scheme turns away a request that carries no bearer
    credentials.  The scheme is framework code, not part of the module;
    the spec gives 401 for a request without [Authorization] header. *)
Definition HTTP_NOT_AUTHENTICATED : Z := 401.

(** The credentials part of the header is the empty string. *)
Definition no_credentials (tok : token) : bool :=
  match tok with
  | Malformed EmptyString => true
  | _ => false
  end.

(** [security = HTTPBearer()], called on the request before
    [verify_token]: a request without the header, with an empty scheme
    or empty credentials, or with a scheme other than bearer (in any
    case of letters) is turned away as not authenticated. *)
Definition security (request : Request) : M HTTPAuthorizationCredentials :=
  let not_authenticated : M HTTPAuthorizationCredentials :=
    raise (HTTPException HTTP_NOT_AUTHENTICATED (JStr "Not authenticated")) in
  match authorization request with
  | None => not_authenticated
  | Some (sch, tok) =>
      if negb (str_truthy sch && negb (no_credentials tok))
      then not_authenticated
      else if negb (String.eqb (lower sch) "bearer")
      then not_authenticated
      else ret (mkCredentials sch tok)
  end.

(** [token_data[k]] *)
Definition getitem (k : string) (d : Dict.t json) : M json :=
  match Dict.get k d with
  | Some v => ret v
  | None => raise (OtherError "KeyError" k)
  end.

(** Student Service Routes (Protected) *)

Definition get_all_students (token_data : Dict.t json) : M JSONResponse :=
  sub <- getitem "sub" token_data ;;
  logger INFO ("User " ++ str_json sub ++ " accessing students list") ;;;
  forward_request "student" "/api/students" "GET" None.

Definition get_student (student_id : Z) (token_data : Dict.t json)
    : M JSONResponse :=
  sub <- getitem "sub" token_data ;;
  logger INFO ("User " ++ str_json sub ++ " accessing student "
               ++ str_of_int student_id) ;;;
  forward_request "student" ("/api/students/" ++ str_of_int student_id)
    "GET" None.

Definition create_student (student_data : json) (token_data : Dict.t json)
    : M JSONResponse :=
  sub <- getitem "sub" token_data ;;
  logger INFO ("User " ++ str_json sub ++ " creating new student") ;;;
  forward_request "student" "/api/students" "POST" (Some student_data).

Definition update_student (student_id : Z) (student_data : json)
    (token_data : Dict.t json) : M JSONResponse :=
  sub <- getitem "sub" token_data ;;
  logger INFO ("User " ++ str_json sub ++ " updating student "
               ++ str_of_int student_id) ;;;
  forward_request "student" ("/api/students/" ++ str_of_int student_id)
    "PUT" (Some student_data).

Definition delete_student (student_id : Z) (token_data : Dict.t json)
    : M JSONResponse :=
  sub <- getitem "sub" token_data ;;
  logger INFO ("User " ++ str_json sub ++ " deleting student "
               ++ str_of_int student_id) ;;;
  forward_request "student" ("/api/students/" ++ str_of_int student_id)
    "DELETE" None.

(** Course Service Routes (Protected) *)

Definition get_all_courses (token_data : Dict.t json) : M JSONResponse :=
  sub <- getitem "sub" token_data ;;
  logger INFO ("User " ++ str_json sub ++ " accessing courses list") ;;;
  forward_request "course" "/api/courses" "GET" None.

Definition get_course (course_id : Z) (token_data : Dict.t json)
    : M JSONResponse :=
  sub <- getitem "sub" token_data ;;
  logger INFO ("User " ++ str_json sub ++ " accessing course "
               ++ str_of_int course_id) ;;;
  forward_request "course" ("/api/courses/" ++ str_of_int course_id)
    "GET" None.

Definition create_course (course_data : json) (token_data : Dict.t json)
    : M JSONResponse :=
  sub <- getitem "sub" token_data ;;
  logger INFO ("User " ++ str_json sub ++ " creating new course") ;;;
  forward_request "course" "/api/courses" "POST" (Some course_data).

Definition update_course (course_id : Z) (course_data : json)
    (token_data : Dict.t json) : M JSONResponse :=
  sub <- getitem "sub" token_data ;;
  logger INFO ("User " ++ str_json sub ++ " updating course "
               ++ str_of_int course_id) ;;;
  forward_request "course" ("/api/courses/" ++ str_of_int course_id)
    "PUT" (Some course_data).

Definition delete_course (course_id : Z) (token_data : Dict.t json)
    : M JSONResponse :=
  sub <- getitem "sub" token_data ;;
  logger INFO ("User " ++ str_json sub ++ " deleting course "
               ++ str_of_int course_id) ;;;
  forward_request "course" ("/api/courses/" ++ str_of_int course_id)
    "DELETE" None.

(** A request to a protected route, after routing and parameter
    parsing: the handler it reaches and the parameters it carries. *)
Inductive route : Type :=
| GET_students
| GET_student (student_id : Z)
| POST_students (student_data : json)
| PUT_student (student_id : Z) (student_data : json)
| DELETE_student (student_id : Z)
| GET_courses
| GET_course (course_id : Z)
| POST_courses (course_data : json)
| PUT_course (course_id : Z) (course_data : json)
| DELETE_course (course_id : Z).

Definition handler (r : route) : Dict.t json -> M JSONResponse :=
  match r with
  | GET_students => get_all_students
  | GET_student i => get_student i
  | POST_students d => create_student d
  | PUT_student i d => update_student i d
  | DELETE_student i => delete_student i
  | GET_courses => get_all_courses
  | GET_course i => get_course i
  | POST_courses d => create_course d
  | PUT_course i d => update_course i d
  | DELETE_course i => delete_course i
  end.

(** [Depends(verify_token)], itself [Depends(security)]. *)
Definition authenticate (now : Z) (request : Request) : M (Dict.t json) :=
  creds <- security request ;;
  verify_token now creds.

(** The framework resolves the dependency, then calls the handler with
    its value; an exception of the dependency is the response. *)
Definition serve (now : Z) (request : Request) (r : route) : M JSONResponse :=
  token_data <- authenticate now request ;;
  handler r token_data.

(** *** Vocabulary of the statements *)

Definition allowed_methods : list string := ["GET"; "POST"; "PUT"; "DELETE"].

(** The detail of the 500 the catch-all clause raises for [e]. *)
Definition internal_detail (e : exn) : json :=
  JObj [ ("error", JStr "Internal Server Error");
         ("message",
          JStr "An unexpected error occurred while processing your request");
         ("details", JStr (str_exn e)) ].

(** The exception the [else] branch of the method chain raises. *)
Definition method_not_allowed (method : string) : exn :=
  HTTPException 405
    (JObj [ ("error", JStr "Method Not Allowed");
            ("message",
             JStr ("HTTP method '" ++ method ++ "' is not supported"));
            ("allowed_methods",
             JArr [JStr "GET"; JStr "POST"; JStr "PUT"; JStr "DELETE"]) ]).

(** The token is three well-formed segments, names the gateway's
    algorithm and carries the signature of its claim set under the
    gateway's secret. *)
Definition well_signed (tok : token) : bool :=
  match tok with
  | Malformed _ => false
  | Jws alg claims signature =>
      String.eqb alg ALGORITHM
      && String.eqb signature (sign SECRET_KEY alg claims)
  end.

Definition token_claims (tok : token) : Dict.t json :=
  match tok with
  | Malformed _ => []
  | Jws _ claims _ => claims
  end.

(** The claim set carries no [exp], or an [exp] later than [now]. *)
Definition unexpired (now : Z) (claims : Dict.t json) : bool :=
  match Dict.get "exp" claims with
  | None => true
  | Some v =>
      match py_int v with
      | Converted e => now <? seconds e
      | _ => false
      end
  end.

(** The time claim [k] is absent, or an integer not later than [now]. *)
Definition matured (k : string) (now : Z) (claims : Dict.t json) : bool :=
  match Dict.get k claims with
  | None => true
  | Some (JNum n) => seconds n <=? now
  | Some _ => false
  end.

Definition unauthorized (detail : string) : M (Dict.t json) :=
  (Raise (HTTPException 401 (JStr detail)), []).

(** The verb of the decorator that binds the route ([@app.get],
    [@app.post], [@app.put], [@app.delete]). *)
Definition route_method (r : route) : string :=
  match r with
  | GET_students | GET_student _ | GET_courses | GET_course _ => "GET"
  | POST_students _ | POST_courses _ => "POST"
  | PUT_student _ _ | PUT_course _ _ => "PUT"
  | DELETE_student _ | DELETE_course _ => "DELETE"
  end.

(** The body parameter of the route, for the handlers that take one. *)
Definition route_body (r : route) : option json :=
  match r with
  | POST_students d | PUT_student _ d | POST_courses d | PUT_course _ d => Some d
  | _ => None
  end.

(** The collection the inbound path names: [/gateway/students...] or
    [/gateway/courses...]. *)
Definition route_collection (r : route) : string :=
  match r with
  | GET_students | GET_student _ | POST_students _ | PUT_student _ _
  | DELETE_student _ => "students"
  | _ => "courses"
  end.

(** The service of the section that declares the route. *)
Definition route_service (r : route) : string :=
  match r with
  | GET_students | GET_student _ | POST_students _ | PUT_student _ _
  | DELETE_student _ => "student"
  | _ => "course"
  end.

(** The token carries a subject: [payload.get("sub")] is not [None]. *)
Definition has_subject (claims : Dict.t json) : bool :=
  match py_get "sub" claims with
  | JNull => false
  | _ => true
  end.

(** ** Properties of the forwarder *)

Lemma outcome_bind_ok {A B} (m : M A) (f : A -> M B) a t :
  m = (Ok a, t) -> outcome (bind m f) = outcome (f a).
Proof.
  intros ->. unfold bind, outcome. destruct (f a) as [r t']. reflexivity.
Qed.

Lemma outcome_bind_raise {A B} (m : M A) (f : A -> M B) e t :
  m = (Raise e, t) -> outcome (bind m f) = Raise e.
Proof. intros ->. reflexivity. Qed.

Lemma outcome_try_ok {A} (m : M A) h a :
  outcome m = Ok a -> outcome (try_except m h) = Ok a.
Proof.
  destruct m as [[a'|e] t]; unfold outcome; simpl; intros H.
  - exact H.
  - discriminate H.
Qed.

Lemma outcome_try_raise {A} (m : M A) h e :
  outcome m = Raise e -> outcome (try_except m h) = outcome (h e).
Proof.
  destruct m as [[a'|e'] t]; unfold outcome; simpl; intros H.
  - discriminate H.
  - injection H as ->. destruct (h e) as [r t']. reflexivity.
Qed.

Lemma events_bind {A B} (m : M A) (f : A -> M B) a t :
  m = (Ok a, t) -> events (bind m f) = (t ++ events (f a))%list.
Proof.
  intros ->. unfold bind, events. destruct (f a) as [r t']. reflexivity.
Qed.

Lemma net_calls_app t1 t2 :
  net_calls (t1 ++ t2) = (net_calls t1 ++ net_calls t2)%list.
Proof.
  induction t1 as [|[l m|r] t1 IH]; simpl; [reflexivity|exact IH|].
  now rewrite IH.
Qed.

(** Once the service is resolved, the outcome is that of the guarded
    block. *)
Lemma forward_request_resolved service base path method kwargs :
  Dict.get service SERVICES = Some base ->
  outcome (forward_request service path method kwargs) =
  outcome (try_except
             (response <- call_backend (base ++ path) method kwargs ;;
              classify service response)
             (on_error service base)).
Proof.
  intros H. unfold forward_request. rewrite H.
  unfold logger. unfold bind at 1.
  destruct (try_except _ _) as [r t']. reflexivity.
Qed.

Lemma call_backend_unsupported url method kwargs :
  ~ In method allowed_methods ->
  call_backend url method kwargs =
  (Raise (method_not_allowed method),
   [Log ERROR ("Method not allowed: " ++ method)]).
Proof.
  intros H. unfold call_backend.
  assert (E : forall m, In m allowed_methods -> String.eqb method m = false).
  { intros m Hm. apply String.eqb_neq. intros ->. exact (H Hm). }
  rewrite !E by (simpl; auto 6). reflexivity.
Qed.

(** A response comes back exactly when a supported method was called
    with keywords its client function takes and the transport
    delivered; one call is on the wire then. *)
Lemma call_backend_response url method kwargs response t :
  call_backend url method kwargs = (Ok response, t) ->
  In method allowed_methods /\
  backend (mkRequest method url kwargs) = Ok response /\
  t = [NetCall (mkRequest method url kwargs)].
Proof.
  unfold call_backend, client_get, client_post, client_put, client_delete.
  destruct (String.eqb_spec method "GET") as [->|_].
  { destruct kwargs; [discriminate|]. unfold send.
    intros H; injection H as H1 H2. simpl. auto. }
  destruct (String.eqb_spec method "POST") as [->|_].
  { unfold send. intros H; injection H as H1 H2. simpl. auto. }
  destruct (String.eqb_spec method "PUT") as [->|_].
  { unfold send. intros H; injection H as H1 H2. simpl. auto 6. }
  destruct (String.eqb_spec method "DELETE") as [->|_].
  { destruct kwargs; [discriminate|]. unfold send.
    intros H; injection H as H1 H2. simpl. auto 6. }
  discriminate.
Qed.

(** What the guarded block does with a response that came back. *)
Lemma forward_request_classified service base path method kwargs response t :
  Dict.get service SERVICES = Some base ->
  call_backend (base ++ path) method kwargs = (Ok response, t) ->
  outcome (forward_request service path method kwargs) =
  outcome (try_except (classify service response) (on_error service base)).
Proof.
  intros Hs Hc. rewrite (forward_request_resolved _ _ _ _ _ Hs).
  rewrite Hc. unfold bind at 1.
  destruct (classify service response) as [[j|e] t']; [reflexivity|].
  unfold try_except, outcome.
  destruct (on_error service base e) as [r t'']. reflexivity.
Qed.

(** What the guarded block does when the client call raises. *)
Lemma forward_request_raised service base path method kwargs e t :
  Dict.get service SERVICES = Some base ->
  call_backend (base ++ path) method kwargs = (Raise e, t) ->
  outcome (forward_request service path method kwargs) =
  outcome (on_error service base e).
Proof.
  intros Hs Hc. rewrite (forward_request_resolved _ _ _ _ _ Hs).
  rewrite Hc. unfold bind at 1.
  apply outcome_try_raise. reflexivity.
Qed.

(** With the service resolved, what the three clauses let out. *)
Lemma forward_request_resolved_raises service base path method kwargs e :
  Dict.get service SERVICES = Some base ->
  outcome (forward_request service path method kwargs) = Raise e ->
  exists status detail,
    e = HTTPException status detail /\ In status [500; 503; 504].
Proof.
  intros Hs. rewrite (forward_request_resolved _ _ _ _ _ Hs).
  assert (Hh : forall e0 e1,
            outcome (on_error service base e0) = Raise e1 ->
            exists status detail,
              e1 = HTTPException status detail /\
              In status [500; 503; 504]).
  { intros e0 e1. destruct e0; cbn; intros H; injection H as <-;
      do 2 eexists; (split; [reflexivity|cbn; auto]). }
  destruct (call_backend (base ++ path) method kwargs) as [[response|e0] t].
  - unfold bind at 1.
    destruct (classify service response) as [[j|e0] t'].
    + cbn. discriminate.
    + cbn. specialize (Hh e0 e).
      destruct (on_error service base e0) as [r t'']. cbn in *. exact Hh.
  - cbn. specialize (Hh e0 e).
    destruct (on_error service base e0) as [r t'']. cbn in *. exact Hh.
Qed.

(** C7: a service name outside the registry is answered with 404
    "Service Not Found", the detail lists exactly "student" and "course"
    as [available_services], and no HTTP call is made. *)
Theorem forward_request_service_not_found service path method kwargs :
  Dict.mem service SERVICES = false ->
  outcome (forward_request service path method kwargs) =
    Raise (HTTPException 404
             (JObj [ ("error", JStr "Service Not Found");
                     ("message",
                      JStr ("The requested service '" ++ service
                            ++ "' is not available"));
                     ("available_services",
                      JArr [JStr "student"; JStr "course"]) ]))
  /\ net_calls (events (forward_request service path method kwargs)) = [].
Proof.
  unfold Dict.mem, forward_request.
  destruct (Dict.get service SERVICES) as [base|]; [discriminate|].
  intros _. split; reflexivity.
Qed.

(** C1 (what the code does): with a registered service, a method outside
    GET, POST, PUT, DELETE makes no HTTP call, but the 405 raised inside
    the guarded block is caught by its last clause and comes out as the
    500 "Internal Server Error". *)
Theorem forward_request_unsupported_method service base path method kwargs :
  Dict.get service SERVICES = Some base ->
  ~ In method allowed_methods ->
  outcome (forward_request service path method kwargs) =
    Raise (HTTPException 500 (internal_detail (method_not_allowed method)))
  /\ net_calls (events (forward_request service path method kwargs)) = [].
Proof.
  intros Hs Hm. unfold forward_request. rewrite Hs.
  rewrite (call_backend_unsupported _ _ _ Hm).
  split; reflexivity.
Qed.

(** No input makes [forward_request] answer 405. *)
Lemma forward_request_never_405 service path method kwargs detail :
  outcome (forward_request service path method kwargs)
  <> Raise (HTTPException 405 detail).
Proof.
  destruct (Dict.get service SERVICES) as [base|] eqn:Hs.
  - intros H.
    destruct (forward_request_resolved_raises _ _ _ _ _ _ Hs H)
      as (status & d & E & Hin).
    injection E as <- _. cbn in Hin.
    destruct Hin as [Hin|[Hin|[Hin|[]]]]; discriminate Hin.
  - unfold forward_request. rewrite Hs. discriminate.
Qed.

(** C2: a backend response with status 400 or more is returned with that
    same status, in the "Service Error" envelope whose [message] is the
    text of the backend's response. *)
Theorem forward_request_upstream_error
    service base path method kwargs response t :
  Dict.get service SERVICES = Some base ->
  call_backend (base ++ path) method kwargs = (Ok response, t) ->
  400 <= resp_status_code response ->
  outcome (forward_request service path method kwargs) =
    Ok (mkJSONResponse
          (JObj [ ("error", JStr "Service Error");
                  ("status_code", JNum (resp_status_code response));
                  ("service", JStr service);
                  ("message", JStr (resp_text response)) ])
          (resp_status_code response)).
Proof.
  intros Hs Hc Hge.
  rewrite (forward_request_classified _ _ _ _ _ _ _ Hs Hc).
  apply outcome_try_ok. unfold classify.
  apply Z.leb_le in Hge. rewrite Hge. reflexivity.
Qed.

(** C8: when the client call raises [ConnectError] the answer is 503
    "Service Unavailable" with the service name and its base URL; when
    it raises [TimeoutException] the answer is 504 "Gateway Timeout" with
    the service name. *)
Theorem forward_request_unreachable service base path method kwargs :
  Dict.get service SERVICES = Some base ->
  (forall msg t,
     call_backend (base ++ path) method kwargs = (Raise (ConnectError msg), t) ->
     outcome (forward_request service path method kwargs) =
       Raise (HTTPException 503
                (JObj [ ("error", JStr "Service Unavailable");
                        ("message",
                         JStr ("Unable to connect to '" ++ service
                               ++ "' service. Please ensure the service is running."));
                        ("service", JStr service);
                        ("service_url", JStr base) ])))
  /\
  (forall msg t,
     call_backend (base ++ path) method kwargs = (Raise (TimeoutException msg), t) ->
     outcome (forward_request service path method kwargs) =
       Raise (HTTPException 504
                (JObj [ ("error", JStr "Gateway Timeout");
                        ("message",
                         JStr ("The service '" ++ service
                               ++ "' took too long to respond"));
                        ("service", JStr service) ]))).
Proof.
  intros Hs. split; intros msg t Hc;
    rewrite (forward_request_raised _ _ _ _ _ _ _ Hs Hc); reflexivity.
Qed.

(** C9 (amended): a backend response with status below 400 whose body is
    empty, or decodes as JSON to a value the response constructor
    renders, is returned with the same status; the content is the decoded
    body, and [null] for the empty body. *)
Theorem forward_request_success service base path method kwargs response t :
  Dict.get service SERVICES = Some base ->
  call_backend (base ++ path) method kwargs = (Ok response, t) ->
  resp_status_code response < 400 ->
  (resp_text response = "" ->
   render_error JNull = None ->
   outcome (forward_request service path method kwargs) =
     Ok (mkJSONResponse JNull (resp_status_code response)))
  /\
  (forall v,
     resp_text response <> "" ->
     json_loads (resp_text response) = inl v ->
     render_error v = None ->
     outcome (forward_request service path method kwargs) =
       Ok (mkJSONResponse v (resp_status_code response))).
Proof.
  intros Hs Hc Hlt.
  rewrite (forward_request_classified _ _ _ _ _ _ _ Hs Hc).
  apply Z.leb_gt in Hlt.
  split.
  - intros He Hr. apply outcome_try_ok. unfold classify, new_JSONResponse.
    rewrite Hlt, He. cbn. rewrite Hr. reflexivity.
  - intros v Hne Hj Hr. apply outcome_try_ok.
    unfold classify, response_json, new_JSONResponse.
    rewrite Hlt, Hj.
    destruct (resp_text response); [congruence|]. cbn. rewrite Hr.
    reflexivity.
Qed.

(** A decoded body that does not render is answered with the 500, like
    one that does not decode. *)
Lemma forward_request_unrenderable_body
    service base path method kwargs response t v cls msg :
  Dict.get service SERVICES = Some base ->
  call_backend (base ++ path) method kwargs = (Ok response, t) ->
  resp_status_code response < 400 ->
  resp_text response <> "" ->
  json_loads (resp_text response) = inl v ->
  render_error v = Some (OtherError cls msg) ->
  outcome (forward_request service path method kwargs) =
    Raise (HTTPException 500 (internal_detail (OtherError cls msg))).
Proof.
  intros Hs Hc Hlt Hne Hj Hr.
  rewrite (forward_request_classified _ _ _ _ _ _ _ Hs Hc).
  apply Z.leb_gt in Hlt.
  unfold classify, response_json, new_JSONResponse. rewrite Hlt, Hj.
  destruct (resp_text response); [congruence|]. cbn. rewrite Hr.
  reflexivity.
Qed.

(** C10: a backend response with status below 400 whose body is not
    empty and does not decode as JSON is not passed through: the decode
    error is caught by the last clause and the answer is the 500
    "Internal Server Error". *)
Theorem forward_request_undecodable_body
    service base path method kwargs response t msg :
  Dict.get service SERVICES = Some base ->
  call_backend (base ++ path) method kwargs = (Ok response, t) ->
  resp_status_code response < 400 ->
  resp_text response <> "" ->
  json_loads (resp_text response) = inr msg ->
  outcome (forward_request service path method kwargs) =
    Raise (HTTPException 500
             (JObj [ ("error", JStr "Internal Server Error");
                     ("message",
                      JStr "An unexpected error occurred while processing your request");
                     ("details",
                      JStr (str_exn (OtherError "JSONDecodeError" msg))) ])).
Proof.
  intros Hs Hc Hlt Hne Hj.
  rewrite (forward_request_classified _ _ _ _ _ _ _ Hs Hc).
  apply Z.leb_gt in Hlt.
  unfold classify, response_json. rewrite Hlt, Hj.
  destruct (resp_text response); [congruence|reflexivity].
Qed.

(** ** Properties of the token gate *)

Lemma jwt_decode_bad_signature tok now :
  well_signed tok = false ->
  exists cls msg,
    jwt_decode tok SECRET_KEY [ALGORITHM] now = Raise (PyJWTError cls msg).
Proof.
  destruct tok as [raw|alg claims signature]; simpl.
  - intros _. do 2 eexists. reflexivity.
  - rewrite orb_false_r.
    destruct (String.eqb alg ALGORITHM); simpl.
    + intros ->. simpl. do 2 eexists. reflexivity.
    + intros _. do 2 eexists. reflexivity.
Qed.

Lemma jwt_decode_signed claims now :
  jwt_decode (jwt_encode claims SECRET_KEY ALGORITHM) SECRET_KEY [ALGORITHM] now =
  and_then (validate_claims claims now) (fun _ => Ok claims).
Proof.
  unfold jwt_encode, jwt_decode.
  cbn [existsb]. rewrite !String.eqb_refl. reflexivity.
Qed.

Lemma well_signed_encoded tok :
  well_signed tok = true ->
  exists claims,
    tok = jwt_encode claims SECRET_KEY ALGORITHM /\ token_claims tok = claims.
Proof.
  destruct tok as [raw|alg claims signature]; simpl; [discriminate|].
  intros H. apply andb_prop in H as [Ha Hs].
  apply String.eqb_eq in Ha. apply String.eqb_eq in Hs.
  subst. exists claims. split; reflexivity.
Qed.

(** How [verify_token] maps each result of the decoder. *)
Lemma verify_token_by_decode now creds :
  verify_token now creds =
  match jwt_decode (credentials creds) SECRET_KEY [ALGORITHM] now with
  | Ok payload =>
      match py_get "sub" payload with
      | JNull => (Raise attribute_error, [])
      | _ => (Ok payload, [])
      end
  | Raise ExpiredSignatureError => unauthorized "Token has expired"
  | Raise _ => (Raise attribute_error, [])
  end.
Proof.
  unfold verify_token.
  destruct (jwt_decode (credentials creds) SECRET_KEY [ALGORITHM] now)
    as [payload|e].
  - cbn. destruct (py_get "sub" payload); reflexivity.
  - destruct e; reflexivity.
Qed.

(** The verifier returns the payload, raises the 401 of the expired
    token, or dies in its second clause; it produces no event. *)
Lemma verify_token_cases now creds :
  (exists payload, verify_token now creds = (Ok payload, [])) \/
  verify_token now creds = unauthorized "Token has expired" \/
  verify_token now creds = (Raise attribute_error, []).
Proof.
  rewrite verify_token_by_decode.
  destruct (jwt_decode (credentials creds) SECRET_KEY [ALGORITHM] now)
    as [payload|e].
  - destruct (py_get "sub" payload); eauto.
  - destruct e; auto.
Qed.

Lemma validate_claims_iat_nbf claims now :
  matured "iat" now claims = true ->
  matured "nbf" now claims = true ->
  validate_claims claims now =
  and_then (validate_exp claims now) (fun _ =>
  and_then (validate_aud claims) (fun _ =>
  and_then (validate_str "sub" "InvalidSubjectError"
              "Subject must be a string" claims) (fun _ =>
  validate_str "jti" "InvalidJTIError" "JWT ID must be a string" claims))).
Proof.
  unfold matured, validate_claims, validate_iat, validate_nbf.
  destruct (Dict.get "iat" claims) as [[|b|n|s|l|d|f]|]; try discriminate.
  - intros Hi. cbn [py_int].
    assert (E : (now <? seconds n) = false)
      by (apply Z.ltb_ge; apply Z.leb_le in Hi; exact Hi).
    rewrite E. cbn [and_then].
    destruct (Dict.get "nbf" claims) as [[|b'|n'|s'|l'|d'|f']|];
      try discriminate.
    + intros Hn. cbn [py_int].
      assert (E' : (now <? seconds n') = false)
        by (apply Z.ltb_ge; apply Z.leb_le in Hn; exact Hn).
      rewrite E'. reflexivity.
    + reflexivity.
  - intros _. cbn [and_then].
    destruct (Dict.get "nbf" claims) as [[|b'|n'|s'|l'|d'|f']|];
      try discriminate.
    + intros Hn. cbn [py_int].
      assert (E' : (now <? seconds n') = false)
        by (apply Z.ltb_ge; apply Z.leb_le in Hn; exact Hn).
      rewrite E'. reflexivity.
    + reflexivity.
Qed.

(** A claim set the validation lets pass has not expired. *)
Lemma validate_claims_unexpired claims now :
  validate_claims claims now = Ok tt -> unexpired now claims = true.
Proof.
  unfold validate_claims, unexpired.
  destruct (validate_iat claims now) as [[]|e]; [|discriminate].
  destruct (validate_nbf claims now) as [[]|e]; [|discriminate].
  cbn [and_then]. unfold validate_exp.
  destruct (Dict.get "exp" claims) as [v|]; [|reflexivity].
  destruct (py_int v) as [n| |e]; try discriminate.
  destruct (seconds n <=? now) eqn:E; [discriminate|].
  intros _. apply Z.ltb_lt. apply Z.leb_gt in E. exact E.
Qed.

(** The claim sets the gateway issues, and any other without the
    registered claims iat, nbf, aud and jti and with a string as subject,
    pass the validation until the second of their [exp]. *)
Lemma validate_claims_plain claims now e s :
  Dict.get "iat" claims = None ->
  Dict.get "nbf" claims = None ->
  Dict.get "aud" claims = None ->
  Dict.get "jti" claims = None ->
  Dict.get "sub" claims = Some (JStr s) ->
  Dict.get "exp" claims = Some (JNum e) ->
  now < seconds e ->
  validate_claims claims now = Ok tt.
Proof.
  intros Hi Hn Ha Hj Hs He Hlt.
  unfold validate_claims, validate_iat, validate_nbf, validate_exp,
    validate_aud, validate_str.
  rewrite Hi, Hn, He, Ha, Hs, Hj. cbn [and_then py_int].
  assert (E : (seconds e <=? now) = false) by (apply Z.leb_gt; exact Hlt).
  rewrite E. reflexivity.
Qed.

Lemma timegm_expire now :
  timegm (now + ACCESS_TOKEN_EXPIRE_MINUTES * 60 * 1000000)
  = timegm now + 30 * 60.
Proof.
  unfold timegm, ACCESS_TOKEN_EXPIRE_MINUTES.
  change (30 * 60 * 1000000) with ((30 * 60) * 1000000).
  apply Z.div_add. discriminate.
Qed.

Lemma create_access_token_encoded now data :
  create_access_token now data =
  jwt_encode (Dict.set "exp" (JNum (timegm now + 30 * 60)) data)
    SECRET_KEY ALGORITHM.
Proof.
  unfold create_access_token. rewrite timegm_expire. reflexivity.
Qed.

(** C3 (amended): a token signed under the gateway's secret, whose [iat]
    and [nbf], if it has them, are not in the future and whose [exp] lies
    in the past, is refused with 401 "Token has expired". *)
Theorem verify_token_expired now sch claims e :
  matured "iat" now claims = true ->
  matured "nbf" now claims = true ->
  Dict.get "exp" claims = Some (JNum e) ->
  seconds e < now ->
  verify_token now (mkCredentials sch (jwt_encode claims SECRET_KEY ALGORITHM))
  = (Raise (HTTPException 401 (JStr "Token has expired")), []).
Proof.
  intros Hi Hn He Hlt. rewrite verify_token_by_decode. cbn [credentials].
  rewrite jwt_decode_signed, (validate_claims_iat_nbf _ _ Hi Hn).
  unfold validate_exp. rewrite He. cbn [py_int].
  assert (Hle : (seconds e <=? now) = true) by (apply Z.leb_le; lia).
  rewrite Hle. reflexivity.
Qed.

(** C5 (what the code does): for a token that is malformed or not signed
    under the gateway's secret, and for a token the decoder accepts that
    has no [sub], the exception raised in the [try] is not an
    [ExpiredSignatureError]; it reaches the clause [except jwt.JWTError],
    and what leaves [verify_token] is the [AttributeError] of that
    clause, not a 401. *)
Theorem verify_token_invalid now sch tok :
  (well_signed tok = false ->
   verify_token now (mkCredentials sch tok) = (Raise attribute_error, []))
  /\
  (forall claims,
     jwt_decode tok SECRET_KEY [ALGORITHM] now = Ok claims ->
     Dict.get "sub" claims = None ->
     verify_token now (mkCredentials sch tok) = (Raise attribute_error, [])).
Proof.
  split.
  - intros Hw. rewrite verify_token_by_decode. cbn [credentials].
    destruct (jwt_decode_bad_signature _ now Hw) as (cls & msg & ->).
    reflexivity.
  - intros claims Hd Hs. rewrite verify_token_by_decode. cbn [credentials].
    rewrite Hd. unfold py_get. rewrite Hs. reflexivity.
Qed.

(** C4 (amended): for a username and password that match a stored user,
    [login] returns a bearer token which [verify_token] accepts at every
    clock reading before the second of its [exp], the whole second of the
    login plus 30 minutes, with the stored user's name as [sub] and role
    as [role]. *)
Theorem login_verify_roundtrip now now' sch login_data u :
  Dict.get (username login_data) fake_users_db = Some u ->
  password login_data = user_password u ->
  now' < seconds (timegm now + 30 * 60) ->
  exists tok payload,
    outcome (login now login_data) = Ok (mkToken tok "bearer") /\
    verify_token now' (mkCredentials sch tok) = (Ok payload, []) /\
    py_get "sub" payload = JStr (user_username u) /\
    py_get "role" payload = JStr (user_role u).
Proof.
  intros Hu Hp Hlt.
  set (data := [ ("sub", JStr (user_username u));
                 ("role", JStr (user_role u)) ] : Dict.t json).
  exists (create_access_token now data).
  exists (Dict.set "exp" (JNum (timegm now + 30 * 60)) data).
  split; [|split].
  - unfold login. rewrite Hu, Hp, String.eqb_refl. reflexivity.
  - rewrite verify_token_by_decode. cbn [credentials].
    rewrite create_access_token_encoded, jwt_decode_signed.
    rewrite (validate_claims_plain _ now' (timegm now + 30 * 60)
               (user_username u)) by (reflexivity || exact Hlt).
    reflexivity.
  - split; reflexivity.
Qed.

(** Every call of [forward_request] leaves a log record, so a run
    without events has not called it. *)
Lemma forward_request_logs service path method kwargs :
  events (forward_request service path method kwargs) <> [].
Proof.
  unfold forward_request.
  destruct (Dict.get service SERVICES) as [base|]; [|discriminate].
  unfold logger. unfold bind at 1.
  destruct (try_except _ _) as [r t]. discriminate.
Qed.

Lemma security_cases request :
  (exists creds, security request = (Ok creds, [])) \/
  security request
  = (Raise (HTTPException 401 (JStr "Not authenticated")), []).
Proof.
  unfold security.
  destruct (authorization request) as [[sch tok]|]; [|right; reflexivity].
  destruct (negb (str_truthy sch && negb (no_credentials tok)));
    [right; reflexivity|].
  destruct (negb (String.eqb (lower sch) "bearer")).
  - right. reflexivity.
  - left. eexists. reflexivity.
Qed.

Lemma authenticate_cases now request :
  (exists payload, authenticate now request = (Ok payload, [])) \/
  (exists detail,
     authenticate now request
     = (Raise (HTTPException 401 (JStr detail)), [])) \/
  authenticate now request = (Raise attribute_error, []).
Proof.
  unfold authenticate.
  destruct (security_cases request) as [[creds ->]| -> ].
  - unfold bind.
    destruct (verify_token_cases now creds) as [[payload ->]|[ -> | -> ]].
    + left. eexists. reflexivity.
    + right. left. eexists. reflexivity.
    + right. right. reflexivity.
  - right. left. eexists. reflexivity.
Qed.

(** C6 (what the code does): when the token dependency of a protected
    route fails, the run has no event, so the handler, and with it
    [forward_request], is not called; but the response is the 401 only
    for a request without bearer credentials or with an expired token.
    For every other failing token the dependency dies with the
    [AttributeError] of its second clause. *)
Theorem protected_route_unauthenticated now request r :
  (forall payload, outcome (authenticate now request) <> Ok payload) ->
  events (serve now request r) = [] /\
  ((exists detail,
      outcome (serve now request r) = Raise (HTTPException 401 (JStr detail)))
   \/ outcome (serve now request r) = Raise attribute_error).
Proof.
  intros Hfail. unfold serve.
  destruct (authenticate_cases now request)
    as [[payload H]|[[detail H]|H]]; rewrite H.
  - exfalso. apply (Hfail payload). rewrite H. reflexivity.
  - split; [reflexivity|]. left. exists detail. reflexivity.
  - split; [reflexivity|]. right. reflexivity.
Qed.

(** ** Further properties of the token gate *)

Lemma Dict_get_set_same {V} k (v : V) d :
  Dict.get k (Dict.set k v d) = Some v.
Proof.
  induction d as [|[k' v'] d IH]; simpl.
  - rewrite String.eqb_refl. reflexivity.
  - destruct (String.eqb k k') eqn:E; simpl; rewrite E; [reflexivity|exact IH].
Qed.

Lemma Dict_get_set_other {V} k k' (v : V) d :
  k' <> k -> Dict.get k' (Dict.set k v d) = Dict.get k' d.
Proof.
  intros Hne. induction d as [|[k0 v0] d IH]; simpl.
  - apply String.eqb_neq in Hne. rewrite Hne. reflexivity.
  - destruct (String.eqb k k0) eqn:E; simpl.
    + apply String.eqb_eq in E. subst k0.
      apply String.eqb_neq in Hne. rewrite Hne. reflexivity.
    + destruct (String.eqb k' k0); [reflexivity|exact IH].
Qed.

(** The verifier returns a payload only in one way. *)
Lemma verify_token_ok_inv now creds payload :
  outcome (verify_token now creds) = Ok payload ->
  well_signed (credentials creds) = true /\
  token_claims (credentials creds) = payload /\
  has_subject payload = true /\
  unexpired now payload = true.
Proof.
  rewrite verify_token_by_decode.
  destruct (well_signed (credentials creds)) eqn:Hw.
  - destruct (well_signed_encoded _ Hw) as (claims & Ht & Hc).
    rewrite Hc, Ht, jwt_decode_signed.
    pose proof (validate_claims_unexpired claims now) as Hu.
    destruct (validate_claims claims now) as [[]|e]; cbn [and_then].
    + specialize (Hu eq_refl). unfold has_subject.
      destruct (py_get "sub" claims) eqn:Hs; cbn; intros H;
        try discriminate H; injection H as <-; rewrite Hs; auto.
    + destruct e; cbn; discriminate.
  - destruct (jwt_decode_bad_signature _ now Hw) as (cls & msg & ->).
    discriminate.
Qed.

(** X1: when the username is not stored, or is stored with another
    password, [login] raises the 401 "Authentication Failed"; the detail
    is the same in both cases, and one warning is logged. *)
Theorem login_failure now login_data :
  (forall u, Dict.get (username login_data) fake_users_db = Some u ->
             user_password u <> password login_data) ->
  login now login_data =
  (Raise (HTTPException 401
            (JObj [ ("error", JStr "Authentication Failed");
                    ("message", JStr "Incorrect username or password") ])),
   [Log WARNING ("Failed login attempt for user: " ++ username login_data)]).
Proof.
  intros H. unfold login.
  destruct (Dict.get (username login_data) fake_users_db) as [u|];
    [|reflexivity].
  specialize (H u eq_refl). apply String.eqb_neq in H. rewrite H. reflexivity.
Qed.

(** X2: [login] returns a token only for a stored user with the stored
    password, and the token then carries that user's name and role and
    the expiry [now + 30 min], in whole seconds, under the gateway's
    signature. *)
Theorem login_success_inv now login_data t :
  outcome (login now login_data) = Ok t ->
  exists u,
    Dict.get (username login_data) fake_users_db = Some u /\
    user_password u = password login_data /\
    token_type t = "bearer" /\
    access_token t =
      jwt_encode [ ("sub", JStr (user_username u));
                   ("role", JStr (user_role u));
                   ("exp", JNum (timegm (now + 30 * 60 * 1000000))) ]
        SECRET_KEY ALGORITHM.
Proof.
  unfold login.
  destruct (Dict.get (username login_data) fake_users_db) as [u|];
    [|discriminate].
  destruct (String.eqb (user_password u) (password login_data)) eqn:E;
    cbn; [|discriminate].
  intros H. injection H as <-. exists u.
  apply String.eqb_eq in E. repeat split; assumption || reflexivity.
Qed.

(** X3: a token returned by [login] is refused with 401 "Token has
    expired" once more than 30 minutes have passed since the login. *)
Theorem login_token_expires now now' sch login_data t :
  outcome (login now login_data) = Ok t ->
  now + 30 * 60 * 1000000 < now' ->
  verify_token now' (mkCredentials sch (access_token t))
  = (Raise (HTTPException 401 (JStr "Token has expired")), []).
Proof.
  unfold login.
  destruct (Dict.get (username login_data) fake_users_db) as [u|];
    [|discriminate].
  destruct (String.eqb (user_password u) (password login_data));
    cbn; [|discriminate].
  intros H Hlt. injection H as <-. cbn [access_token].
  rewrite verify_token_by_decode. cbn [credentials].
  rewrite create_access_token_encoded, jwt_decode_signed.
  rewrite validate_claims_iat_nbf by reflexivity.
  unfold validate_exp.
  cbn [Dict.set Dict.get String.eqb Ascii.eqb Bool.eqb py_int].
  assert (Hle : (seconds (timegm now + 30 * 60) <=? now') = true).
  { apply Z.leb_le. unfold seconds, timegm.
    pose proof (Z.mul_div_le now 1000000 eq_refl). lia. }
  rewrite Hle. reflexivity.
Qed.

(** X4: a payload [verify_token] returns is the claim set, unchanged, of
    a token that names HS256 and carries the signature of that claim set
    under the gateway's secret; it has a subject and has not expired. *)
Theorem verify_token_accepts now sch tok payload :
  outcome (verify_token now (mkCredentials sch tok)) = Ok payload ->
  well_signed tok = true /\
  token_claims tok = payload /\
  has_subject payload = true /\
  unexpired now payload = true.
Proof.
  intros H. apply (verify_token_ok_inv _ _ _ H).
Qed.

(** X5: the claim set [create_access_token] signs is [data] with [exp]
    set to [now + 30 min] in whole seconds: an [exp] already in [data] is
    overridden, every other claim is kept, and the token verifies under
    the gateway's secret. *)
Theorem create_access_token_claims now data :
  well_signed (create_access_token now data) = true /\
  Dict.get "exp" (token_claims (create_access_token now data))
  = Some (JNum (timegm (now + 30 * 60 * 1000000))) /\
  (forall k, k <> "exp" ->
     Dict.get k (token_claims (create_access_token now data)) = Dict.get k data).
Proof.
  change (30 * 60 * 1000000) with (ACCESS_TOKEN_EXPIRE_MINUTES * 60 * 1000000).
  rewrite timegm_expire.
  rewrite create_access_token_encoded. unfold jwt_encode.
  cbn [well_signed token_claims]. rewrite !String.eqb_refl.
  split; [reflexivity|]. split.
  - apply Dict_get_set_same.
  - intros k Hk. apply Dict_get_set_other. exact Hk.
Qed.

(** X6: for claims [data] whose subject is a string and which carry none
    of the registered claims iss, iat, nbf, aud and jti, the token made
    by [create_access_token] is accepted at every clock reading before
    the second of its [exp], and the payload returned agrees with [data]
    on every claim but [exp]. *)
Theorem create_verify_roundtrip now now' sch data s :
  Dict.get "sub" data = Some (JStr s) ->
  (forall k, In k ["iss"; "iat"; "nbf"; "aud"; "jti"] ->
             Dict.get k data = None) ->
  now' < seconds (timegm now + 30 * 60) ->
  exists payload,
    verify_token now' (mkCredentials sch (create_access_token now data))
    = (Ok payload, []) /\
    Dict.get "exp" payload = Some (JNum (timegm now + 30 * 60)) /\
    (forall k, k <> "exp" -> Dict.get k payload = Dict.get k data).
Proof.
  intros Hs Hnone Hlt.
  exists (Dict.set "exp" (JNum (timegm now + 30 * 60)) data).
  split; [|split].
  - rewrite verify_token_by_decode. cbn [credentials].
    rewrite create_access_token_encoded, jwt_decode_signed.
    rewrite (validate_claims_plain _ now' (timegm now + 30 * 60) s).
    + cbn [and_then]. unfold py_get.
      rewrite Dict_get_set_other by discriminate. rewrite Hs. reflexivity.
    + rewrite Dict_get_set_other by discriminate.
      apply Hnone. cbn. auto.
    + rewrite Dict_get_set_other by discriminate.
      apply Hnone. cbn. auto.
    + rewrite Dict_get_set_other by discriminate.
      apply Hnone. cbn. auto.
    + rewrite Dict_get_set_other by discriminate.
      apply Hnone. cbn. auto 6.
    + rewrite Dict_get_set_other by discriminate. exact Hs.
    + apply Dict_get_set_same.
    + exact Hlt.
  - apply Dict_get_set_same.
  - intros k Hk. apply Dict_get_set_other. exact Hk.
Qed.

(** ** Further properties of the forwarder *)

Lemma events_bind_outcome {A B} (m : M A) (f : A -> M B) :
  events (bind m f) =
  (events m ++ match outcome m with
               | Ok a => events (f a)
               | Raise _ => []
               end)%list.
Proof.
  destruct m as [[a|e] t]; unfold bind, events, outcome; cbn.
  - destruct (f a) as [r t']. reflexivity.
  - symmetry. apply app_nil_r.
Qed.

Lemma events_try_outcome {A} (m : M A) (h : exn -> M A) :
  events (try_except m h) =
  (events m ++ match outcome m with
               | Ok _ => []
               | Raise e => events (h e)
               end)%list.
Proof.
  destruct m as [[a|e] t]; unfold try_except, events, outcome; cbn.
  - symmetry. apply app_nil_r.
  - destruct (h e) as [r t']. reflexivity.
Qed.

Lemma classify_no_calls service response :
  net_calls (events (classify service response)) = [].
Proof.
  unfold classify.
  destruct (400 <=? resp_status_code response); [reflexivity|].
  unfold new_JSONResponse, response_json.
  destruct (str_truthy (resp_text response)).
  - destruct (json_loads (resp_text response)) as [v|msg]; [|reflexivity].
    cbn. destruct (render_error v); reflexivity.
  - cbn. destruct (render_error JNull); reflexivity.
Qed.

Lemma on_error_no_calls service base e :
  net_calls (events (on_error service base e)) = [].
Proof. destruct e; reflexivity. Qed.

(** The method chain either sends the one request, or raises without
    sending. *)
Lemma call_backend_calls url method kwargs :
  (In method allowed_methods /\
   call_backend url method kwargs
   = (backend (mkRequest method url kwargs),
      [NetCall (mkRequest method url kwargs)])) \/
  (net_calls (events (call_backend url method kwargs)) = [] /\
   exists e, outcome (call_backend url method kwargs) = Raise e).
Proof.
  unfold call_backend, client_get, client_post, client_put, client_delete,
    send.
  destruct (String.eqb_spec method "GET") as [->|_].
  { destruct kwargs; [right|left]; cbn; eauto. }
  destruct (String.eqb_spec method "POST") as [->|_].
  { left. cbn; auto. }
  destruct (String.eqb_spec method "PUT") as [->|_].
  { left. cbn; auto. }
  destruct (String.eqb_spec method "DELETE") as [->|_].
  { destruct kwargs; [right|left]; cbn; eauto 6. }
  right. cbn. eauto.
Qed.

(** The HTTP calls of a forward are those of its method chain. *)
Lemma forward_request_net_calls service base path method kwargs :
  Dict.get service SERVICES = Some base ->
  net_calls (events (forward_request service path method kwargs)) =
  net_calls (events (call_backend (base ++ path) method kwargs)).
Proof.
  intros Hs. unfold forward_request. rewrite Hs.
  rewrite events_bind_outcome, events_try_outcome, events_bind_outcome.
  rewrite !net_calls_app. cbn [logger events outcome fst snd net_calls app].
  pose proof (classify_no_calls service) as Hcl.
  pose proof (on_error_no_calls service base) as Hon.
  destruct (call_backend (base ++ path) method kwargs) as [[response|e] t].
  - specialize (Hcl response). unfold bind.
    cbn [outcome events fst snd] in *.
    destruct (classify service response) as [[j|e] t'];
      cbn [outcome events fst snd] in *;
      rewrite ?net_calls_app, ?Hcl, ?Hon, ?app_nil_r; reflexivity.
  - cbn [bind outcome events fst snd].
    rewrite ?net_calls_app, ?Hon, ?app_nil_r. reflexivity.
Qed.

(** X7: one call of [forward_request] makes at most one HTTP call, and
    only to the base URL of the registered service followed by [path],
    with the method and the JSON body it was given. *)
Theorem forward_request_single_call service path method kwargs :
  net_calls (events (forward_request service path method kwargs)) = [] \/
  exists base,
    Dict.get service SERVICES = Some base /\
    In method allowed_methods /\
    net_calls (events (forward_request service path method kwargs))
    = [mkRequest method (base ++ path) kwargs].
Proof.
  destruct (Dict.get service SERVICES) as [base|] eqn:Hs.
  - rewrite (forward_request_net_calls _ _ _ _ _ Hs).
    destruct (call_backend_calls (base ++ path) method kwargs)
      as [[Hm Hc]|[Hn _]].
    + right. exists base. rewrite Hc. auto.
    + left. exact Hn.
  - left. unfold forward_request. rewrite Hs. reflexivity.
Qed.

(** X8: whatever [forward_request] raises is an [HTTPException] with
    status 404, 500, 503 or 504; no exception of the transport or of the
    JSON decoder leaves it. *)
Theorem forward_request_raises_only service path method kwargs e :
  outcome (forward_request service path method kwargs) = Raise e ->
  exists status detail,
    e = HTTPException status detail /\ In status [404; 500; 503; 504].
Proof.
  destruct (Dict.get service SERVICES) as [base|] eqn:Hs.
  - intros H.
    destruct (forward_request_resolved_raises _ _ _ _ _ _ Hs H)
      as (status & detail & -> & Hin).
    exists status, detail. split; [reflexivity|]. right. exact Hin.
  - unfold forward_request. rewrite Hs. cbn. intros H. injection H as <-.
    do 2 eexists. split; [reflexivity|cbn; auto].
Qed.

(** X9: when the client call raises anything other than a timeout or a
    connection error, the answer is the 500 "Internal Server Error" whose
    [details] is the text of that exception. *)
Theorem forward_request_other_exception service base path method kwargs e t :
  Dict.get service SERVICES = Some base ->
  call_backend (base ++ path) method kwargs = (Raise e, t) ->
  (forall msg, e <> TimeoutException msg) ->
  (forall msg, e <> ConnectError msg) ->
  outcome (forward_request service path method kwargs) =
    Raise (HTTPException 500
             (JObj [ ("error", JStr "Internal Server Error");
                     ("message",
                      JStr "An unexpected error occurred while processing your request");
                     ("details", JStr (str_exn e)) ])).
Proof.
  intros Hs Hc Ht Hn.
  rewrite (forward_request_raised _ _ _ _ _ _ _ Hs Hc).
  destruct e; try reflexivity.
  - exfalso. apply (Ht msg). reflexivity.
  - exfalso. apply (Hn msg). reflexivity.
Qed.

(** X10: a response returned by [forward_request] always stems from a
    response of the backend: the service is registered, the method is
    one of the four, the backend answered the request, and the status
    returned is the backend's; the content is the error envelope for a
    status of 400 or more, and otherwise [null] for an empty body or the
    decoded body. *)
Theorem forward_request_ok_inv service path method kwargs j :
  outcome (forward_request service path method kwargs) = Ok j ->
  exists base response,
    Dict.get service SERVICES = Some base /\
    In method allowed_methods /\
    backend (mkRequest method (base ++ path) kwargs) = Ok response /\
    status_code j = resp_status_code response /\
    (if 400 <=? resp_status_code response
     then content j =
          JObj [ ("error", JStr "Service Error");
                 ("status_code", JNum (resp_status_code response));
                 ("service", JStr service);
                 ("message", JStr (resp_text response)) ]
     else if str_truthy (resp_text response)
          then json_loads (resp_text response) = inl (content j)
          else content j = JNull).
Proof.
  destruct (Dict.get service SERVICES) as [base|] eqn:Hs.
  - destruct (call_backend (base ++ path) method kwargs)
      as [[response|e] t] eqn:Hc.
    + rewrite (forward_request_classified _ _ _ _ _ _ _ Hs Hc).
      destruct (call_backend_response _ _ _ _ _ Hc) as (Hm & Hb & _).
      intros H. exists base, response.
      split; [reflexivity|]. split; [exact Hm|]. split; [exact Hb|].
      revert H. unfold classify.
      destruct (400 <=? resp_status_code response).
      * cbn. intros H. injection H as <-. split; reflexivity.
      * unfold new_JSONResponse.
        destruct (str_truthy (resp_text response)).
        -- unfold response_json.
           destruct (json_loads (resp_text response)) as [v|msg].
           ++ cbn. destruct (render_error v) as [e0|]; cbn;
                [destruct e0; cbn; discriminate|].
              intros H. injection H as <-. split; reflexivity.
           ++ cbn. discriminate.
        -- cbn. destruct (render_error JNull) as [e0|]; cbn;
             [destruct e0; cbn; discriminate|].
           intros H. injection H as <-. split; reflexivity.
    + rewrite (forward_request_raised _ _ _ _ _ _ _ Hs Hc).
      destruct e; cbn; discriminate.
  - unfold forward_request. rewrite Hs. cbn. discriminate.
Qed.

(** ** Properties of the protected routes *)

Lemma authenticate_ok_inv now request payload :
  outcome (authenticate now request) = Ok payload ->
  exists sch tok,
    authorization request = Some (sch, tok) /\
    lower sch = "bearer" /\
    well_signed tok = true /\
    token_claims tok = payload /\
    has_subject payload = true /\
    unexpired now payload = true.
Proof.
  unfold authenticate, security.
  destruct (authorization request) as [[sch tok]|]; [|discriminate].
  destruct (negb (str_truthy sch && negb (no_credentials tok)));
    [discriminate|].
  destruct (String.eqb_spec (lower sch) "bearer") as [Hb|_];
    [|discriminate].
  cbn [negb]. unfold ret. unfold bind.
  destruct (verify_token now (mkCredentials sch tok)) as [r t] eqn:Hv.
  cbn. intros ->.
  assert (Ho : outcome (verify_token now (mkCredentials sch tok)) = Ok payload)
    by (rewrite Hv; reflexivity).
  apply verify_token_ok_inv in Ho. cbn [credentials] in Ho.
  destruct Ho as (H1 & H2 & H3 & H4).
  exists sch, tok. repeat split; assumption.
Qed.

Lemma has_subject_getitem token_data :
  has_subject token_data = true ->
  exists v, getitem "sub" token_data = (Ok v, []).
Proof.
  unfold has_subject, py_get, getitem.
  destruct (Dict.get "sub" token_data) as [v|]; [|discriminate].
  intros _. exists v. reflexivity.
Qed.

Lemma bind_ok_nil {A B} (a : A) (f : A -> M B) :
  bind (Ok a, []) f = f a.
Proof. unfold bind. destruct (f a) as [r t]. reflexivity. Qed.

(** Each handler logs one line and hands over to the forwarder. *)
Lemma handler_forwards r token_data :
  has_subject token_data = true ->
  exists path msg,
    String.prefix ("/api/" ++ route_collection r) path = true /\
    handler r token_data =
    (logger INFO msg ;;;
     forward_request (route_service r) path (route_method r) (route_body r)).
Proof.
  intros Hs. destruct (has_subject_getitem _ Hs) as [v Hv].
  destruct r; cbn [handler route_collection route_service route_method
                   route_body];
    unfold get_all_students, get_student, create_student, update_student,
      delete_student, get_all_courses, get_course, create_course,
      update_course, delete_course;
    rewrite Hv, bind_ok_nil; do 2 eexists; (split; [|reflexivity]);
    reflexivity.
Qed.

Lemma route_service_registered r :
  exists base, Dict.get (route_service r) SERVICES = Some base.
Proof. destruct r; eexists; reflexivity. Qed.

Lemma route_call_sends r url :
  call_backend url (route_method r) (route_body r)
  = (backend (mkRequest (route_method r) url (route_body r)),
     [NetCall (mkRequest (route_method r) url (route_body r))]).
Proof. destruct r; reflexivity. Qed.

Lemma authenticate_ok_events now request payload :
  outcome (authenticate now request) = Ok payload ->
  authenticate now request = (Ok payload, []).
Proof.
  destruct (authenticate_cases now request)
    as [[payload' H]|[[detail H]|H]]; rewrite H; cbn; intros E;
    try discriminate E.
  injection E as ->. reflexivity.
Qed.

(** X11: on a protected route, a request whose token is accepted gets
    what [forward_request] gives for the route's service, a path under
    [/api/students] or [/api/courses], the inbound method and the inbound
    body; exactly one HTTP call is made, to the base URL of that
    service. *)
Theorem serve_authenticated now request r token_data :
  outcome (authenticate now request) = Ok token_data ->
  exists base path,
    Dict.get (route_service r) SERVICES = Some base /\
    String.prefix ("/api/" ++ route_collection r) path = true /\
    outcome (serve now request r) =
      outcome (forward_request (route_service r) path (route_method r)
                 (route_body r)) /\
    net_calls (events (serve now request r)) =
      [mkRequest (route_method r) (base ++ path) (route_body r)].
Proof.
  intros Ha.
  destruct (authenticate_ok_inv _ _ _ Ha) as (sch & tok & _ & _ & _ & _ & Hs & _).
  destruct (handler_forwards r token_data Hs) as (path & msg & Hp & Hh).
  destruct (route_service_registered r) as [base Hb].
  exists base, path. split; [exact Hb|]. split; [exact Hp|].
  unfold serve.
  rewrite (authenticate_ok_events _ _ _ Ha), bind_ok_nil, Hh.
  pose proof (forward_request_net_calls _ _ path (route_method r)
                (route_body r) Hb) as Hn.
  rewrite route_call_sends in Hn. cbn [events snd net_calls] in Hn.
  unfold logger, bind.
  destruct (forward_request (route_service r) path (route_method r)
              (route_body r)) as [res t].
  cbn in *. split; [reflexivity|exact Hn].
Qed.

(** X12: a protected route makes an HTTP call only for a request that
    carries a bearer token signed under the gateway's secret, naming a
    subject and not expired. *)
Theorem serve_call_requires_token now request r :
  net_calls (events (serve now request r)) <> [] ->
  exists sch tok,
    authorization request = Some (sch, tok) /\
    lower sch = "bearer" /\
    well_signed tok = true /\
    has_subject (token_claims tok) = true /\
    unexpired now (token_claims tok) = true.
Proof.
  intros Hn.
  destruct (authenticate_cases now request)
    as [[payload He]|[[detail He]|He]].
  - assert (Ho : outcome (authenticate now request) = Ok payload)
      by (rewrite He; reflexivity).
    destruct (authenticate_ok_inv _ _ _ Ho)
      as (sch & tok & H1 & H2 & H3 & H4 & H5 & H6).
    exists sch, tok. subst payload. auto.
  - exfalso. apply Hn. unfold serve. rewrite He. reflexivity.
  - exfalso. apply Hn. unfold serve. rewrite He. reflexivity.
Qed.

(** X13: what a protected route raises is an [HTTPException] with status
    401, 500, 503 or 504, or the [AttributeError] in which the token
    dependency dies: the handlers name registered services only, so the
    404 of the forwarder cannot occur, and the lookup of the subject in
    the payload cannot fail. *)
Theorem serve_raises_only now request r e :
  outcome (serve now request r) = Raise e ->
  (exists status detail,
     e = HTTPException status detail /\ In status [401; 500; 503; 504])
  \/ e = attribute_error.
Proof.
  unfold serve.
  destruct (authenticate_cases now request)
    as [[payload He]|[[detail He]|He]].
  - assert (Ho : outcome (authenticate now request) = Ok payload)
      by (rewrite He; reflexivity).
    destruct (authenticate_ok_inv _ _ _ Ho) as (sch & tok & _ & _ & _ & _ & Hs & _).
    destruct (handler_forwards r payload Hs) as (path & msg & _ & Hh).
    destruct (route_service_registered r) as [base Hb].
    rewrite He, bind_ok_nil, Hh.
    unfold logger, bind.
    pose proof (forward_request_resolved_raises (route_service r) base path
                  (route_method r) (route_body r) e Hb) as Hr.
    destruct (forward_request (route_service r) path (route_method r)
                (route_body r)) as [res t].
    cbn in *. intros H.
    destruct (Hr H) as (status & detail & -> & Hin).
    left. exists status, detail. split; [reflexivity|]. right. exact Hin.
  - rewrite He. cbn. intros H. injection H as <-.
    left. do 2 eexists. split; [reflexivity|cbn; auto].
  - rewrite He. cbn. intros H. injection H as <-. right. reflexivity.
Qed.

End Gateway.

(** ** The statements on the concrete environment *)

Lemma forward_request_service_not_found_witness :
  Dict.mem "billing" SERVICES = false /\
  outcome (forward_request demo_backend demo_json_loads demo_render_error demo_str_exn
             "billing" "/api/invoices" "GET" None) =
    Raise (HTTPException 404
             (JObj [ ("error", JStr "Service Not Found");
                     ("message",
                      JStr "The requested service 'billing' is not available");
                     ("available_services",
                      JArr [JStr "student"; JStr "course"]) ])) /\
  net_calls (events (forward_request demo_backend demo_json_loads demo_render_error demo_str_exn
             "billing" "/api/invoices" "GET" None)) = [].
Proof.
  split; [reflexivity|].
  apply (forward_request_service_not_found demo_backend demo_json_loads demo_render_error
           demo_str_exn "billing" "/api/invoices" "GET" None).
  reflexivity.
Defined.

Lemma PATCH_not_allowed : ~ In "PATCH" allowed_methods.
Proof.
  simpl. intros [H|[H|[H|[H|[]]]]]; discriminate H.
Defined.

Lemma forward_request_unsupported_method_witness :
  Dict.get "student" SERVICES = Some "http://localhost:8001" /\
  ~ In "PATCH" allowed_methods /\
  outcome (forward_request demo_backend demo_json_loads demo_render_error demo_str_exn
             "student" "/api/students" "PATCH" None) =
    Raise (HTTPException 500
             (internal_detail demo_str_exn (method_not_allowed "PATCH"))) /\
  net_calls (events (forward_request demo_backend demo_json_loads demo_render_error demo_str_exn
             "student" "/api/students" "PATCH" None)) = [].
Proof.
  split; [reflexivity|]. split; [exact PATCH_not_allowed|].
  apply (forward_request_unsupported_method demo_backend demo_json_loads demo_render_error
           demo_str_exn "student" "http://localhost:8001" "/api/students"
           "PATCH" None); [reflexivity|exact PATCH_not_allowed].
Defined.

Lemma forward_request_upstream_error_witness :
  400 <= 404 /\
  outcome (forward_request demo_backend demo_json_loads demo_render_error demo_str_exn
             "student" "/api/students/999" "GET" None) =
    Ok (mkJSONResponse
          (JObj [ ("error", JStr "Service Error");
                  ("status_code", JNum 404);
                  ("service", JStr "student");
                  ("message", JStr "Student not found") ])
          404).
Proof.
  split; [lia|].
  apply (forward_request_upstream_error demo_backend demo_json_loads demo_render_error
           demo_str_exn "student" "http://localhost:8001" "/api/students/999"
           "GET" None (mkResponse 404 "Student not found")
           [NetCall (mkRequest "GET" "http://localhost:8001/api/students/999" None)]).
  - reflexivity.
  - reflexivity.
  - simpl. lia.
Defined.

Lemma forward_request_unreachable_witness :
  outcome (forward_request demo_backend demo_json_loads demo_render_error demo_str_exn
             "course" "/api/courses" "GET" None) =
    Raise (HTTPException 503
             (JObj [ ("error", JStr "Service Unavailable");
                     ("message",
                      JStr "Unable to connect to 'course' service. Please ensure the service is running.");
                     ("service", JStr "course");
                     ("service_url", JStr "http://localhost:8002") ])) /\
  outcome (forward_request demo_backend demo_json_loads demo_render_error demo_str_exn
             "student" "/api/slow" "GET" None) =
    Raise (HTTPException 504
             (JObj [ ("error", JStr "Gateway Timeout");
                     ("message",
                      JStr "The service 'student' took too long to respond");
                     ("service", JStr "student") ])).
Proof.
  split.
  - apply (proj1 (forward_request_unreachable demo_backend demo_json_loads demo_render_error
                    demo_str_exn "course" "http://localhost:8002"
                    "/api/courses" "GET" None eq_refl)
             "All connection attempts failed"
             [NetCall (mkRequest "GET" "http://localhost:8002/api/courses" None)]).
    reflexivity.
  - apply (proj2 (forward_request_unreachable demo_backend demo_json_loads demo_render_error
                    demo_str_exn "student" "http://localhost:8001"
                    "/api/slow" "GET" None eq_refl)
             ""
             [NetCall (mkRequest "GET" "http://localhost:8001/api/slow" None)]).
    reflexivity.
Defined.

Lemma forward_request_success_witness :
  outcome (forward_request demo_backend demo_json_loads demo_render_error demo_str_exn
             "student" "/api/students" "GET" None) =
    Ok (mkJSONResponse (JArr []) 200) /\
  outcome (forward_request demo_backend demo_json_loads demo_render_error demo_str_exn
             "student" "/api/students/7" "DELETE" None) =
    Ok (mkJSONResponse JNull 204).
Proof.
  split.
  - apply (proj2 (forward_request_success demo_backend demo_json_loads demo_render_error
                    demo_str_exn "student" "http://localhost:8001"
                    "/api/students" "GET" None (mkResponse 200 "[]")
                    [NetCall (mkRequest "GET" "http://localhost:8001/api/students" None)]
                    eq_refl eq_refl eq_refl)).
    + discriminate.
    + reflexivity.
    + reflexivity.
  - apply (proj1 (forward_request_success demo_backend demo_json_loads demo_render_error
                    demo_str_exn "student" "http://localhost:8001"
                    "/api/students/7" "DELETE" None (mkResponse 204 "")
                    [NetCall (mkRequest "DELETE" "http://localhost:8001/api/students/7" None)]
                    eq_refl eq_refl eq_refl)); reflexivity.
Defined.

(** C9 as stated fails: the student service answers the probe with status
    200 and a page that is not JSON, and the gateway answers 500. *)
Lemma forward_request_success_counterexample :
  call_backend demo_backend "http://localhost:8001/health" "GET" None
  = (Ok (mkResponse 200 "<html>ok</html>"),
     [NetCall (mkRequest "GET" "http://localhost:8001/health" None)]) /\
  200 < 400 /\
  outcome (forward_request demo_backend demo_json_loads demo_render_error demo_str_exn
             "student" "/health" "GET" None) =
    Raise (HTTPException 500
             (JObj [ ("error", JStr "Internal Server Error");
                     ("message",
                      JStr "An unexpected error occurred while processing your request");
                     ("details",
                      JStr "Expecting value: line 1 column 1 (char 0)") ])).
Proof.
  split; [reflexivity|]. split; [lia|reflexivity].
Qed.

Lemma forward_request_undecodable_body_witness :
  200 < 400 /\
  outcome (forward_request demo_backend demo_json_loads demo_render_error demo_str_exn
             "student" "/health" "GET" None) =
    Raise (HTTPException 500
             (JObj [ ("error", JStr "Internal Server Error");
                     ("message",
                      JStr "An unexpected error occurred while processing your request");
                     ("details",
                      JStr "Expecting value: line 1 column 1 (char 0)") ])).
Proof.
  split; [lia|].
  apply (forward_request_undecodable_body demo_backend demo_json_loads demo_render_error
           demo_str_exn "student" "http://localhost:8001" "/health" "GET" None
           (mkResponse 200 "<html>ok</html>")
           [NetCall (mkRequest "GET" "http://localhost:8001/health" None)]
           "Expecting value: line 1 column 1 (char 0)").
  - reflexivity.
  - reflexivity.
  - simpl. lia.
  - discriminate.
  - reflexivity.
Defined.

Lemma verify_token_expired_witness :
  Dict.get "exp" admin_claims = Some (JNum 2800) /\
  seconds 2800 < 5000000000 /\
  verify_token demo_sign demo_int_of_str 5000000000
    (mkCredentials "Bearer" admin_token)
  = (Raise (HTTPException 401 (JStr "Token has expired")), []).
Proof.
  split; [reflexivity|]. split; [reflexivity|].
  apply (verify_token_expired demo_sign demo_int_of_str 5000000000 "Bearer"
           admin_claims 2800); reflexivity.
Defined.

(** C3 as stated fails: the forged token carries an [exp] in the past and
    is not refused as expired; its signature is checked first. *)
Lemma verify_token_expired_counterexample :
  Dict.get "exp" (token_claims forged_token) = Some (JNum 2800) /\
  seconds 2800 < 5000000000 /\
  verify_token demo_sign demo_int_of_str 5000000000
    (mkCredentials "Bearer" forged_token)
  = (Raise attribute_error, []).
Proof.
  split; [reflexivity|]. split; reflexivity.
Qed.

Lemma verify_token_invalid_witness :
  verify_token demo_sign demo_int_of_str 1500000000
    (mkCredentials "Bearer" forged_token)
  = (Raise attribute_error, []) /\
  verify_token demo_sign demo_int_of_str 1500000000
    (mkCredentials "Bearer" (Malformed "abc.def"))
  = (Raise attribute_error, []) /\
  verify_token demo_sign demo_int_of_str 1500000000
    (mkCredentials "Bearer" (anonymous_token 2800))
  = (Raise attribute_error, []).
Proof.
  split; [|split].
  - apply (proj1 (verify_token_invalid demo_sign demo_int_of_str 1500000000
                    "Bearer" forged_token)).
    reflexivity.
  - apply (proj1 (verify_token_invalid demo_sign demo_int_of_str 1500000000
                    "Bearer" (Malformed "abc.def"))).
    reflexivity.
  - apply (proj2 (verify_token_invalid demo_sign demo_int_of_str 1500000000
                    "Bearer" (anonymous_token 2800))
             (anonymous_claims 2800)); reflexivity.
Defined.

Lemma login_verify_roundtrip_witness :
  Dict.get "admin" fake_users_db = Some (mkUser "admin" "admin123" "admin") /\
  2799999999 < seconds (timegm 1000600000 + 30 * 60) /\
  exists tok payload,
    outcome (login demo_sign 1000600000 (mkLoginRequest "admin" "admin123"))
    = Ok (mkToken tok "bearer") /\
    verify_token demo_sign demo_int_of_str 2799999999
      (mkCredentials "Bearer" tok) = (Ok payload, []) /\
    py_get "sub" payload = JStr "admin" /\
    py_get "role" payload = JStr "admin".
Proof.
  split; [reflexivity|]. split; [reflexivity|].
  apply (login_verify_roundtrip demo_sign demo_int_of_str 1000600000
           2799999999 "Bearer"
           (mkLoginRequest "admin" "admin123")
           (mkUser "admin" "admin123" "admin")); reflexivity.
Defined.

(** C4 as stated fails: admin logs in 0.6 s into a second, and 1799.6 s
    later, before 30 minutes have elapsed, the token is refused as
    expired. *)
Lemma login_verify_roundtrip_counterexample :
  outcome (login demo_sign 1000600000 (mkLoginRequest "admin" "admin123"))
  = Ok (mkToken admin_token "bearer") /\
  2800200000 < 1000600000 + 30 * 60 * 1000000 /\
  verify_token demo_sign demo_int_of_str 2800200000
    (mkCredentials "Bearer" admin_token)
  = (Raise (HTTPException 401 (JStr "Token has expired")), []).
Proof.
  split; [reflexivity|]. split; reflexivity.
Qed.

Lemma no_header_fails payload :
  outcome (authenticate demo_sign demo_int_of_str 1500000000
             (mkHttpRequest None)) <> Ok payload.
Proof. discriminate. Defined.

Lemma forged_bearer_fails payload :
  outcome (authenticate demo_sign demo_int_of_str 1500000000
             (mkHttpRequest (Some ("Bearer", forged_token)))) <> Ok payload.
Proof. discriminate. Defined.

(** The request of the failing input of C6, evaluated. *)
Lemma protected_route_forged_token :
  serve demo_sign demo_int_of_str demo_backend demo_json_loads
    demo_render_error demo_str_exn demo_str_json 1500000000
    (mkHttpRequest (Some ("Bearer", forged_token))) GET_courses
  = (Raise attribute_error, []).
Proof. reflexivity. Qed.

Lemma protected_route_unauthenticated_witness :
  (events (serve demo_sign demo_int_of_str demo_backend demo_json_loads
             demo_render_error demo_str_exn demo_str_json 1500000000
             (mkHttpRequest None) GET_courses) = [] /\
   ((exists detail,
       outcome (serve demo_sign demo_int_of_str demo_backend demo_json_loads
                  demo_render_error demo_str_exn demo_str_json 1500000000
                  (mkHttpRequest None) GET_courses)
       = Raise (HTTPException 401 (JStr detail)))
    \/ outcome (serve demo_sign demo_int_of_str demo_backend demo_json_loads
                  demo_render_error demo_str_exn demo_str_json 1500000000
                  (mkHttpRequest None) GET_courses)
       = Raise attribute_error)) /\
  (events (serve demo_sign demo_int_of_str demo_backend demo_json_loads
             demo_render_error demo_str_exn demo_str_json 1500000000
             (mkHttpRequest (Some ("Bearer", forged_token))) GET_courses) = [] /\
   ((exists detail,
       outcome (serve demo_sign demo_int_of_str demo_backend demo_json_loads
                  demo_render_error demo_str_exn demo_str_json 1500000000
                  (mkHttpRequest (Some ("Bearer", forged_token))) GET_courses)
       = Raise (HTTPException 401 (JStr detail)))
    \/ outcome (serve demo_sign demo_int_of_str demo_backend demo_json_loads
                  demo_render_error demo_str_exn demo_str_json 1500000000
                  (mkHttpRequest (Some ("Bearer", forged_token))) GET_courses)
       = Raise attribute_error)).
Proof.
  split.
  - apply (protected_route_unauthenticated demo_sign demo_int_of_str
             demo_backend demo_json_loads demo_render_error demo_str_exn
             demo_str_json 1500000000 (mkHttpRequest None) GET_courses
             no_header_fails).
  - apply (protected_route_unauthenticated demo_sign demo_int_of_str
             demo_backend demo_json_loads demo_render_error demo_str_exn
             demo_str_json 1500000000
             (mkHttpRequest (Some ("Bearer", forged_token))) GET_courses
             forged_bearer_fails).
Defined.

Lemma login_failure_witness :
  login demo_sign 1000000000 (mkLoginRequest "admin" "letmein") =
  (Raise (HTTPException 401
            (JObj [ ("error", JStr "Authentication Failed");
                    ("message", JStr "Incorrect username or password") ])),
   [Log WARNING "Failed login attempt for user: admin"]) /\
  login demo_sign 1000000000 (mkLoginRequest "root" "admin123") =
  (Raise (HTTPException 401
            (JObj [ ("error", JStr "Authentication Failed");
                    ("message", JStr "Incorrect username or password") ])),
   [Log WARNING "Failed login attempt for user: root"]).
Proof.
  split.
  - apply (login_failure demo_sign 1000000000
             (mkLoginRequest "admin" "letmein")).
    intros u H. injection H as <-. discriminate.
  - apply (login_failure demo_sign 1000000000
             (mkLoginRequest "root" "admin123")).
    intros u H. discriminate H.
Defined.

Lemma login_success_inv_witness :
  exists u,
    Dict.get "user" fake_users_db = Some u /\
    user_password u = "user123" /\
    token_type (mkToken
                  (create_access_token demo_sign 1000000000
                     [("sub", JStr "user"); ("role", JStr "user")])
                  "bearer") = "bearer" /\
    create_access_token demo_sign 1000000000
      [("sub", JStr "user"); ("role", JStr "user")] =
    jwt_encode demo_sign
      [ ("sub", JStr (user_username u)); ("role", JStr (user_role u));
        ("exp", JNum (timegm (1000000000 + 30 * 60 * 1000000))) ]
      SECRET_KEY ALGORITHM.
Proof.
  apply (login_success_inv demo_sign 1000000000
           (mkLoginRequest "user" "user123")
           (mkToken
              (create_access_token demo_sign 1000000000
                 [("sub", JStr "user"); ("role", JStr "user")])
              "bearer")).
  reflexivity.
Defined.

Lemma login_token_expires_witness :
  verify_token demo_sign demo_int_of_str 2800000001
    (mkCredentials "Bearer" admin_token)
  = (Raise (HTTPException 401 (JStr "Token has expired")), []).
Proof.
  apply (login_token_expires demo_sign demo_int_of_str 1000000000 2800000001
           "Bearer" (mkLoginRequest "admin" "admin123")
           (mkToken admin_token "bearer")); reflexivity.
Defined.

Lemma verify_token_accepts_witness :
  well_signed demo_sign admin_token = true /\
  token_claims admin_token = admin_claims /\
  has_subject admin_claims = true /\
  unexpired demo_int_of_str 1500000000 admin_claims = true.
Proof.
  apply (verify_token_accepts demo_sign demo_int_of_str 1500000000 "Bearer"
           admin_token admin_claims).
  reflexivity.
Defined.

Lemma create_access_token_claims_witness :
  Dict.get "exp"
    (token_claims
       (create_access_token demo_sign 1000000000
          [("sub", JStr "admin"); ("exp", JNum 99999999)]))
  = Some (JNum (timegm (1000000000 + 30 * 60 * 1000000))) /\
  Dict.get "sub"
    (token_claims
       (create_access_token demo_sign 1000000000
          [("sub", JStr "admin"); ("exp", JNum 99999999)]))
  = Some (JStr "admin").
Proof.
  pose proof (create_access_token_claims demo_sign 1000000000
                [("sub", JStr "admin"); ("exp", JNum 99999999)])
    as (_ & He & Hk).
  split; [exact He|]. rewrite (Hk "sub"); [reflexivity|discriminate].
Defined.

Lemma create_verify_roundtrip_witness :
  exists payload,
    verify_token demo_sign demo_int_of_str 2799999999
      (mkCredentials "Bearer"
         (create_access_token demo_sign 1000600000
            [("sub", JStr "guest"); ("scope", JArr [JStr "read"])]))
    = (Ok payload, []) /\
    Dict.get "exp" payload = Some (JNum (timegm 1000600000 + 30 * 60)) /\
    (forall k, k <> "exp" ->
       Dict.get k payload =
       Dict.get k [("sub", JStr "guest"); ("scope", JArr [JStr "read"])]).
Proof.
  apply (create_verify_roundtrip demo_sign demo_int_of_str 1000600000
           2799999999 "Bearer"
           [("sub", JStr "guest"); ("scope", JArr [JStr "read"])] "guest").
  - reflexivity.
  - intros k [<-|[<-|[<-|[<-|[<-|[]]]]]]; reflexivity.
  - reflexivity.
Defined.

Lemma forward_request_raises_only_witness :
  exists status detail,
    HTTPException 503
      (JObj [ ("error", JStr "Service Unavailable");
              ("message",
               JStr "Unable to connect to 'course' service. Please ensure the service is running.");
              ("service", JStr "course");
              ("service_url", JStr "http://localhost:8002") ])
    = HTTPException status detail /\
    In status [404; 500; 503; 504].
Proof.
  apply (forward_request_raises_only demo_backend demo_json_loads demo_render_error demo_str_exn
           "course" "/api/courses" "GET" None).
  reflexivity.
Defined.

Lemma forward_request_other_exception_witness :
  outcome (forward_request demo_backend demo_json_loads demo_render_error demo_str_exn
             "student" "/api/students" "GET" (Some (JObj []))) =
    Raise (HTTPException 500
             (JObj [ ("error", JStr "Internal Server Error");
                     ("message",
                      JStr "An unexpected error occurred while processing your request");
                     ("details",
                      JStr "get() got an unexpected keyword argument 'json'") ])).
Proof.
  apply (forward_request_other_exception demo_backend demo_json_loads demo_render_error
           demo_str_exn "student" "http://localhost:8001" "/api/students"
           "GET" (Some (JObj []))
           (OtherError "TypeError"
              "get() got an unexpected keyword argument 'json'") []).
  - reflexivity.
  - reflexivity.
  - discriminate.
  - discriminate.
Defined.

Lemma forward_request_ok_inv_witness :
  exists base response,
    Dict.get "student" SERVICES = Some base /\
    In "GET" allowed_methods /\
    demo_backend (mkRequest "GET" (base ++ "/api/students/999") None)
    = Ok response /\
    404 = resp_status_code response /\
    (if 400 <=? resp_status_code response
     then JObj [ ("error", JStr "Service Error");
                 ("status_code", JNum 404);
                 ("service", JStr "student");
                 ("message", JStr "Student not found") ] =
          JObj [ ("error", JStr "Service Error");
                 ("status_code", JNum (resp_status_code response));
                 ("service", JStr "student");
                 ("message", JStr (resp_text response)) ]
     else if str_truthy (resp_text response)
          then demo_json_loads (resp_text response)
               = inl (JObj [ ("error", JStr "Service Error");
                             ("status_code", JNum 404);
                             ("service", JStr "student");
                             ("message", JStr "Student not found") ])
          else JObj [ ("error", JStr "Service Error");
                      ("status_code", JNum 404);
                      ("service", JStr "student");
                      ("message", JStr "Student not found") ] = JNull).
Proof.
  apply (forward_request_ok_inv demo_backend demo_json_loads demo_render_error demo_str_exn
           "student" "/api/students/999" "GET" None
           (mkJSONResponse
              (JObj [ ("error", JStr "Service Error");
                      ("status_code", JNum 404);
                      ("service", JStr "student");
                      ("message", JStr "Student not found") ])
              404)).
  reflexivity.
Defined.

Lemma serve_authenticated_witness :
  exists base path,
    Dict.get "course" SERVICES = Some base /\
    String.prefix "/api/courses" path = true /\
    outcome (serve demo_sign demo_int_of_str demo_backend demo_json_loads
               demo_render_error demo_str_exn demo_str_json 1500000000
               (mkHttpRequest (Some ("Bearer", admin_token)))
               (PUT_course 3 (JObj [("credits", JNum 4)]))) =
      outcome (forward_request demo_backend demo_json_loads demo_render_error
                 demo_str_exn
                 "course" path "PUT" (Some (JObj [("credits", JNum 4)]))) /\
    net_calls (events (serve demo_sign demo_int_of_str demo_backend
                         demo_json_loads demo_render_error demo_str_exn
                         demo_str_json 1500000000
                         (mkHttpRequest (Some ("Bearer", admin_token)))
                         (PUT_course 3 (JObj [("credits", JNum 4)])))) =
      [mkRequest "PUT" (base ++ path) (Some (JObj [("credits", JNum 4)]))].
Proof.
  apply (serve_authenticated demo_sign demo_int_of_str demo_backend
           demo_json_loads demo_render_error demo_str_exn demo_str_json
           1500000000
           (mkHttpRequest (Some ("Bearer", admin_token)))
           (PUT_course 3 (JObj [("credits", JNum 4)])) admin_claims).
  reflexivity.
Defined.

Lemma serve_call_requires_token_witness :
  exists sch tok,
    Some ("Bearer", admin_token) = Some (sch, tok) /\
    lower sch = "bearer" /\
    well_signed demo_sign tok = true /\
    has_subject (token_claims tok) = true /\
    unexpired demo_int_of_str 1500000000 (token_claims tok) = true.
Proof.
  apply (serve_call_requires_token demo_sign demo_int_of_str demo_backend
           demo_json_loads demo_render_error demo_str_exn demo_str_json
           1500000000
           (mkHttpRequest (Some ("Bearer", admin_token))) GET_students).
  discriminate.
Defined.

Lemma serve_raises_only_witness :
  ((exists status detail,
      HTTPException 503
        (JObj [ ("error", JStr "Service Unavailable");
                ("message",
                 JStr "Unable to connect to 'course' service. Please ensure the service is running.");
                ("service", JStr "course");
                ("service_url", JStr "http://localhost:8002") ])
      = HTTPException status detail /\
      In status [401; 500; 503; 504])
   \/ HTTPException 503
        (JObj [ ("error", JStr "Service Unavailable");
                ("message",
                 JStr "Unable to connect to 'course' service. Please ensure the service is running.");
                ("service", JStr "course");
                ("service_url", JStr "http://localhost:8002") ])
      = attribute_error) /\
  ((exists status detail,
      attribute_error = HTTPException status detail /\
      In status [401; 500; 503; 504])
   \/ attribute_error = attribute_error).
Proof.
  split.
  - apply (serve_raises_only demo_sign demo_int_of_str demo_backend
             demo_json_loads demo_render_error demo_str_exn demo_str_json
             1500000000
             (mkHttpRequest (Some ("Bearer", admin_token))) (GET_course 2)).
    reflexivity.
  - apply (serve_raises_only demo_sign demo_int_of_str demo_backend
             demo_json_loads demo_render_error demo_str_exn demo_str_json
             1500000000
             (mkHttpRequest (Some ("Bearer", forged_token))) (GET_course 2)).
    reflexivity.
Defined.

(** ** Properties of the course service *)

Module CourseServiceFacts.
Import CourseService.

Lemma option_eqb_spec {A} (eqb : A -> A -> bool) :
  (forall a b, eqb a b = true <-> a = b) ->
  forall x y, option_eqb eqb x y = true <-> x = y.
Proof.
  intros H [a|] [b|]; simpl; split; intros E; try discriminate; try reflexivity.
  - f_equal. apply H, E.
  - injection E as ->. apply H. reflexivity.
Qed.

Lemma Course_eqb_eq a b : Course_eqb a b = true <-> a = b.
Proof.
  unfold Course_eqb. rewrite !andb_true_iff, Z.eqb_eq.
  rewrite !(option_eqb_spec String.eqb String.eqb_eq).
  rewrite (option_eqb_spec Z.eqb Z.eqb_eq).
  destruct a, b; simpl. split.
  - intros ((((-> & ->) & ->) & ->) & ->). reflexivity.
  - intros E. injection E as -> -> -> -> ->. auto.
Qed.

Lemma find_id_some course_id l c :
  find (fun c => id c =? course_id) l = Some c ->
  In c l /\ id c = course_id.
Proof.
  intros H. apply find_some in H as [Hin He]. split; [exact Hin|].
  apply Z.eqb_eq, He.
Qed.

Lemma find_id_none course_id l :
  find (fun c => id c =? course_id) l = None <-> ~ In course_id (map id l).
Proof.
  induction l as [|c l IH]; simpl.
  - tauto.
  - destruct (Z.eqb_spec (id c) course_id) as [E|E].
    + split; [discriminate|]. intros H. exfalso. apply H. left. exact E.
    + rewrite IH. tauto.
Qed.

(** Removing the course found by id drops the first course with that id:
    no course before it is equal to it. *)
Lemma list_remove_found course_id l c :
  find (fun c => id c =? course_id) l = Some c ->
  list_remove c l = Some (drop_first course_id l).
Proof.
  induction l as [|y l IH]; simpl; [discriminate|].
  destruct (Z.eqb_spec (id y) course_id) as [E|E].
  - intros H. injection H as ->.
    assert (Hr : Course_eqb c c = true) by (apply Course_eqb_eq; reflexivity).
    rewrite Hr. reflexivity.
  - intros H. pose proof (find_id_some _ _ _ H) as [_ Hc].
    destruct (Course_eqb y c) eqn:Hy.
    + apply Course_eqb_eq in Hy. subst y. contradiction.
    + rewrite (IH H). reflexivity.
Qed.

Lemma drop_first_ids course_id l :
  forall i, In i (map id (drop_first course_id l)) -> In i (map id l).
Proof.
  induction l as [|c l IH]; simpl; [tauto|].
  intros i. destruct (id c =? course_id); simpl; [tauto|].
  intros [H|H]; [left; exact H|right; apply IH, H].
Qed.

Lemma drop_first_NoDup course_id l :
  NoDup (map id l) -> NoDup (map id (drop_first course_id l)).
Proof.
  induction l as [|c l IH]; simpl; [trivial|].
  intros H. inversion H as [|x xs Hx Hnd]; subst.
  destruct (id c =? course_id); simpl; [exact Hnd|].
  constructor; [|apply IH, Hnd].
  intros Hin. apply Hx. apply (drop_first_ids _ _ _ Hin).
Qed.

Lemma drop_first_Forall (P : Course -> Prop) course_id l :
  Forall P l -> Forall P (drop_first course_id l).
Proof.
  induction 1 as [|c l Hc Hl IH]; simpl; [constructor|].
  destruct (id c =? course_id); [exact Hl|constructor; assumption].
Qed.

Lemma find_drop_first_same course_id l :
  NoDup (map id l) ->
  find (fun c => id c =? course_id) (drop_first course_id l) = None.
Proof.
  induction l as [|c l IH]; simpl; [reflexivity|].
  intros H. inversion H as [|x xs Hx Hnd]; subst.
  destruct (Z.eqb_spec (id c) course_id) as [E|E].
  - apply find_id_none. rewrite <- E. exact Hx.
  - simpl. destruct (Z.eqb_spec (id c) course_id); [contradiction|].
    apply IH, Hnd.
Qed.

Lemma find_drop_first_other course_id j l :
  j <> course_id ->
  find (fun c => id c =? j) (drop_first course_id l)
  = find (fun c => id c =? j) l.
Proof.
  intros Hj. induction l as [|c l IH]; simpl; [reflexivity|].
  destruct (Z.eqb_spec (id c) course_id) as [E|E].
  - destruct (Z.eqb_spec (id c) j) as [E'|E']; [congruence|reflexivity].
  - simpl. destruct (id c =? j); [reflexivity|exact IH].
Qed.

Lemma drop_first_length course_id l c :
  find (fun c => id c =? course_id) l = Some c ->
  S (List.length (drop_first course_id l)) = List.length l.
Proof.
  induction l as [|y l IH]; simpl; [discriminate|].
  destruct (id y =? course_id); [reflexivity|].
  intros H. simpl. rewrite (IH H). reflexivity.
Qed.

Lemma assign_first_ids course_id c' l :
  id c' = course_id ->
  map id (assign_first course_id c' l) = map id l.
Proof.
  intros Hc. induction l as [|c l IH]; simpl; [reflexivity|].
  destruct (Z.eqb_spec (id c) course_id) as [E|E]; simpl.
  - congruence.
  - rewrite IH. reflexivity.
Qed.

Lemma assign_first_Forall (P : Course -> Prop) course_id c' l :
  P c' -> Forall P l -> Forall P (assign_first course_id c' l).
Proof.
  intros Hc. induction 1 as [|c l Hp Hl IH]; simpl; [constructor|].
  destruct (id c =? course_id); constructor; assumption.
Qed.



Lemma assign_first_found course_id c l :
  find (fun c => id c =? course_id) l = Some c ->
  assign_first course_id c l = l.
Proof.
  induction l as [|y l IH]; simpl; [reflexivity|].
  destruct (id y =? course_id).
  - intros H. injection H as ->. reflexivity.
  - intros H. rewrite (IH H). reflexivity.
Qed.

Lemma find_app_last (f : Course -> bool) l c :
  find f (l ++ [c]) =
  match find f l with
  | Some x => Some x
  | None => if f c then Some c else None
  end.
Proof.
  induction l as [|y l IH]; simpl; [reflexivity|].
  destruct (f y); [reflexivity|exact IH].
Qed.

Lemma ids_below_not_found bound l :
  Forall (fun c => id c < bound) l ->
  find (fun c => id c =? bound) l = None.
Proof.
  intros H. apply find_id_none. intros Hin.
  apply in_map_iff in Hin as (c & Hc & Hi).
  rewrite Forall_forall in H. specialize (H c Hi). lia.
Qed.

Lemma delete_course_by_id self course_id :
  delete_course self course_id =
  match get_course_by_id self course_id with
  | Some _ =>
      Some (true, mkService (drop_first course_id (courses self)) (next_id self))
  | None => Some (false, self)
  end.
Proof.
  unfold delete_course, get_course_by_id.
  destruct (find _ (courses self)) as [c|] eqn:Hf; [|reflexivity].
  rewrite (list_remove_found _ _ _ Hf). reflexivity.
Qed.

Lemma add_course_fresh self course_data :
  ids_fresh self -> ids_fresh (snd (add_course self course_data)).
Proof.
  intros [Hnd Hlt]. unfold ids_fresh, add_course. cbn [snd courses next_id].
  split.
  - rewrite map_app. cbn [map id].
    apply NoDup_app; [exact Hnd|repeat constructor; simpl; tauto|].
    intros i Hi [<-|[]].
    apply in_map_iff in Hi as (c & Hc & Hin).
    rewrite Forall_forall in Hlt. specialize (Hlt c Hin). lia.
  - apply Forall_app. split.
    + eapply Forall_impl; [|exact Hlt]. cbn. intros c Hc. lia.
    + repeat constructor. cbn. lia.
Qed.

Lemma update_course_fresh self course_id course_data :
  ids_fresh self -> ids_fresh (snd (update_course self course_id course_data)).
Proof.
  intros [Hnd Hlt]. unfold update_course, get_course_by_id.
  destruct (find _ (courses self)) as [c|] eqn:Hf; [|split; assumption].
  destruct (find_id_some _ _ _ Hf) as [Hin Hid].
  unfold ids_fresh. cbn [snd courses next_id]. split.
  - rewrite assign_first_ids by exact Hid. exact Hnd.
  - apply assign_first_Forall; [|exact Hlt].
    cbn [apply_update id]. rewrite Forall_forall in Hlt. apply Hlt, Hin.
Qed.

Lemma delete_course_fresh self course_id b self' :
  ids_fresh self ->
  delete_course self course_id = Some (b, self') ->
  ids_fresh self'.
Proof.
  intros [Hnd Hlt]. rewrite delete_course_by_id.
  destruct (get_course_by_id self course_id); intros H; injection H as <- <-.
  - split; cbn [courses next_id].
    + apply drop_first_NoDup, Hnd.
    + apply drop_first_Forall, Hlt.
  - split; assumption.
Qed.

Lemma init_fresh : ids_fresh init.
Proof.
  split; cbn.
  - repeat constructor; simpl; intuition lia.
  - repeat constructor; cbn; lia.
Qed.

Lemma step_fresh self c : ids_fresh self -> ids_fresh (step self c).
Proof.
  intros H. destruct c as [d|i d|i]; cbn [step].
  - apply add_course_fresh, H.
  - apply update_course_fresh, H.
  - destruct (delete_course self i) as [[b self']|] eqn:Hd; [|exact H].
    apply (delete_course_fresh _ _ _ _ H Hd).
Qed.

(** X14: in every store the service can reach from its initial one by
    adding, updating and deleting, the course ids are pairwise distinct
    and all smaller than the counter for the next id. *)
Theorem reachable_ids_fresh calls : ids_fresh (run calls init).
Proof.
  unfold run. generalize init_fresh. generalize init.
  induction calls as [|c calls IH]; intros self H; cbn [fold_left].
  - exact H.
  - apply IH. apply step_fresh, H.
Qed.

(** X15: in a store with fresh ids, [add_course] gives the new course the
    counter as id, [get_course_by_id] then finds the new course under
    that id, and every other lookup is as before. *)
Theorem add_course_then_get self course_data :
  ids_fresh self ->
  let new_course := fst (add_course self course_data) in
  let self' := snd (add_course self course_data) in
  id new_course = next_id self /\
  next_id self' = next_id self + 1 /\
  get_course_by_id self' (id new_course) = Some new_course /\
  (forall i, i <> id new_course ->
     get_course_by_id self' i = get_course_by_id self i).
Proof.
  intros [Hnd Hlt]. cbn zeta. unfold add_course, get_course_by_id.
  cbn [fst snd courses next_id id].
  split; [reflexivity|]. split; [reflexivity|]. split.
  - rewrite find_app_last, (ids_below_not_found _ _ Hlt).
    cbn [id]. rewrite Z.eqb_refl. reflexivity.
  - intros i Hi. rewrite find_app_last. cbn [id].
    destruct (find (fun c => id c =? i) (courses self)); [reflexivity|].
    destruct (Z.eqb_spec (next_id self) i); [congruence|reflexivity].
Qed.

(** X16: [delete_course] never fails in [list.remove]; it returns [True]
    exactly when a course has the id, and [False] leaves the store as it
    is. *)
Theorem delete_course_result self course_id :
  exists b self',
    delete_course self course_id = Some (b, self') /\
    (b = true <-> In course_id (map id (courses self))) /\
    (b = false -> self' = self).
Proof.
  rewrite delete_course_by_id. unfold get_course_by_id.
  destruct (find _ (courses self)) as [c|] eqn:Hf.
  - do 2 eexists. split; [reflexivity|]. split; [|discriminate].
    split; [|reflexivity]. intros _.
    destruct (find_id_some _ _ _ Hf) as [Hin <-]. apply in_map, Hin.
  - do 2 eexists. split; [reflexivity|]. split; [|reflexivity].
    split; [discriminate|]. intros Hin.
    apply find_id_none in Hf. contradiction.
Qed.

(** X17: in a store with fresh ids, after [delete_course] returned [True]
    no course has the id any more, one course less is stored, every
    other lookup is as before, and the counter is unchanged, so that a
    later [add_course] does not give the deleted id to a new course. *)
Theorem delete_course_removes self course_id self' course_data :
  ids_fresh self ->
  delete_course self course_id = Some (true, self') ->
  get_course_by_id self' course_id = None /\
  S (List.length (courses self')) = List.length (courses self) /\
  (forall j, j <> course_id ->
     get_course_by_id self' j = get_course_by_id self j) /\
  id (fst (add_course self' course_data)) <> course_id.
Proof.
  intros [Hnd Hlt]. rewrite delete_course_by_id. unfold get_course_by_id.
  destruct (find _ (courses self)) as [c|] eqn:Hf; [|discriminate].
  intros H. injection H as <-. cbn [courses next_id add_course fst id].
  split; [apply find_drop_first_same, Hnd|].
  split; [apply (drop_first_length _ _ _ Hf)|].
  split; [intros j Hj; apply find_drop_first_other, Hj|].
  destruct (find_id_some _ _ _ Hf) as [Hin <-].
  rewrite Forall_forall in Hlt. specialize (Hlt c Hin). lia.
Qed.


(** X19: an update that sets no field changes nothing: [update_course]
    returns the stored course and leaves the store as it is. *)
Theorem update_course_unset self course_id :
  update_course self course_id (mkCourseUpdate None None None None)
  = (get_course_by_id self course_id, self).
Proof.
  unfold update_course, get_course_by_id.
  destruct (find _ (courses self)) as [c|] eqn:Hf; [|reflexivity].
  assert (Hc : apply_update c (mkCourseUpdate None None None None) = c)
    by (destruct c; reflexivity).
  rewrite Hc, (assign_first_found _ _ _ Hf). destruct self; reflexivity.
Qed.

Lemma add_course_then_get_witness :
  id (fst (add_course init (mkCourseCreate "Compilers" "CS401" 4 "Dr. Lee"))) = 4 /\
  get_course_by_id
    (snd (add_course init (mkCourseCreate "Compilers" "CS401" 4 "Dr. Lee"))) 4
  = Some (mkCourse 4 (Some "Compilers") (Some "CS401") (Some 4) (Some "Dr. Lee")).
Proof.
  pose proof (add_course_then_get init
                (mkCourseCreate "Compilers" "CS401" 4 "Dr. Lee") init_fresh)
    as (H1 & _ & H3 & _).
  split; [exact H1|exact H3].
Defined.

Lemma delete_course_removes_witness :
  get_course_by_id
    (mkService
       [ mkCourse 1 (Some "Introduction to Programming") (Some "CS101")
           (Some 3) (Some "Dr. Smith");
         mkCourse 2 (Some "Data Structures") (Some "CS201") (Some 4)
           (Some "Dr. Johnson") ] 4) 3 = None /\
  id (fst (add_course
             (mkService
                [ mkCourse 1 (Some "Introduction to Programming") (Some "CS101")
                    (Some 3) (Some "Dr. Smith");
                  mkCourse 2 (Some "Data Structures") (Some "CS201") (Some 4)
                    (Some "Dr. Johnson") ] 4)
             (mkCourseCreate "Compilers" "CS401" 4 "Dr. Lee"))) <> 3.
Proof.
  pose proof (delete_course_removes init 3
                (mkService
                   [ mkCourse 1 (Some "Introduction to Programming")
                       (Some "CS101") (Some 3) (Some "Dr. Smith");
                     mkCourse 2 (Some "Data Structures") (Some "CS201")
                       (Some 4) (Some "Dr. Johnson") ] 4)
                (mkCourseCreate "Compilers" "CS401" 4 "Dr. Lee")
                init_fresh eq_refl)
    as (H1 & _ & _ & H4).
  split; [exact H1|exact H4].
Defined.

End CourseServiceFacts.
